(** * pseudo_sympy: expression trees, formal differentiation and rendering

    A shallow embedding of [making_sympy1.py] (the base program) and
    [making_sympy2.py] (the extended program with [-], [sin] and [cos]).

    Python objects are modelled as follows.
    - An [Expression] instance is a value of an inductive type with one
      constructor per concrete class; structural equality of trees is
      Leibniz equality.
    - [Constant.value] is stored unchecked by [Constant.__init__], so it
      holds whatever object was passed: an [int], a [float], or (as the
      reflected combinators do) another [Expression].  The payload type
      [pyobj] has a case for each.
    - [int] is [Z]; [float] is IEEE binary64, as [spec_float] with
      precision 53 and maximal exponent 1024.
    - A call that may raise returns a [result]; the exceptions of interest
      are [NotImplementedError] (raised by [Power.derivative]) and
      [TypeError] (raised by the interpreter when no operand implements
      an operator).
    - The interpreter's resource limits are left out of [derivative]
      and of [__repr__]: recursion is as deep as the tree, and an [int]
      prints all of its digits.  The function [render] of each program
      is [__repr__] under the two limits that make printing fail: the
      number of nested calls the interpreter still allows, and the
      largest number of digits [str] gives to an [int]. *)

From Stdlib Require Import ZArith Ascii String Bool Lia.
From Stdlib Require Import DecimalString.
From Stdlib Require Import Floats.SpecFloat.

Open Scope string_scope.

(** ** The Python runtime, as far as both programs use it *)

Module Py.

(** What [isinstance(other, (int, float))] accepts. *)
Inductive number : Type :=
| PyInt (z : Z)
| PyFloat (f : spec_float).

Inductive exn : Type :=
| NotImplementedError (msg : string)
| TypeError
| ValueError
| RecursionError.

Inductive result (A : Type) : Type :=
| Ok (a : A)
| Raise (e : exn).

Arguments Ok {A} a.
Arguments Raise {A} e.

Definition bind {A B : Type} (m : result A) (k : A -> result B) : result B :=
  match m with
  | Ok a => k a
  | Raise e => Raise e
  end.

(** binary64 *)
Definition prec : Z := 53.
Definition emax : Z := 1024.

(** [float(1)] *)
Definition float_one : spec_float := SFone prec emax.

(** [n - 1] on numbers: exact on [int]; on [float] the literal [1] is
    converted to [1.0] and the difference is rounded to nearest. *)
Definition number_sub_one (n : number) : number :=
  match n with
  | PyInt z => PyInt (z - 1)
  | PyFloat f => PyFloat (SFsub prec emax f float_one)
  end.

Definition float_is_finite (f : spec_float) : bool :=
  match f with
  | S754_zero _ | S754_finite _ _ _ => true
  | S754_infinity _ | S754_nan => false
  end.

Definition number_is_finite (n : number) : bool :=
  match n with
  | PyInt _ => true
  | PyFloat f => float_is_finite f
  end.

(** [str(z)] for an [int]. *)
Definition str_int (z : Z) : string := NilZero.string_of_int (Z.to_int z).

(** [sys.int_info.default_max_str_digits]: [str] of an [int] with more
    decimal digits than this raises [ValueError]. *)
Definition max_str_digits : nat := 4300.

(** The number of decimal digits of an [int], its sign left out. *)
Definition decimal_digits (z : Z) : nat := String.length (str_int (Z.abs z)).

(** [str(z)] for an [int], under the limit on digits. *)
Definition str_int_limited (z : Z) : result string :=
  if Nat.leb (decimal_digits z) max_str_digits
  then Ok (str_int z)
  else Raise ValueError.

(** The integer that a number stands for: an [int] itself, and a
    [float] whose binary exponent is not negative. *)
Definition number_integer (n : number) : option Z :=
  match n with
  | PyInt z => Some z
  | PyFloat (S754_zero _) => Some 0%Z
  | PyFloat (S754_finite s m e) =>
      if (0 <=? e)%Z
      then Some ((if s then -1 else 1) * Z.pos m * 2 ^ e)%Z
      else None
  | PyFloat _ => None
  end.

(** [str(n)]; the text of a [float] is the interpreter's business
    ([float.__repr__]) and is taken as given. *)
Definition str_number (float_repr : spec_float -> string) (n : number) : string :=
  match n with
  | PyInt z => str_int z
  | PyFloat f => float_repr f
  end.

(** [str(n)] under the limit on digits; a [float] always has a text. *)
Definition str_number_limited (float_repr : spec_float -> string) (n : number)
  : result string :=
  match n with
  | PyInt z => str_int_limited z
  | PyFloat f => Ok (float_repr f)
  end.

(** The binary operators of the expression language. *)
Inductive operator : Type := OpAdd | OpSub | OpMul | OpDiv | OpPow.

Definition symbol (o : operator) : string :=
  match o with
  | OpAdd => "+"
  | OpSub => "-"
  | OpMul => "*"
  | OpDiv => "/"
  | OpPow => "**"
  end.

End Py.

Import Py.

Declare Scope py_scope.
Delimit Scope py_scope with py.
Notation "x <- m ;; k" := (bind m (fun x => k))
  (at level 61, m at next level, right associativity) : py_scope.
Open Scope py_scope.

(** ** making_sympy1.py *)

Module making_sympy1.

(** The concrete subclasses of [Expression]; [Var] is the class
    [Variable] (a reserved word here). *)
Inductive Expression : Type :=
| Var (name : string)
| Constant (value : pyobj)
| Addition (left right : Expression)
| Multiplication (left right : Expression)
| Division (left right : Expression)
| Subtraction (left right : Expression)
| Power (base exponent : Expression)
with pyobj : Type :=
| Num (n : number)
| Obj (e : Expression).

(** [if isinstance(other, (int, float)): other = Constant(other)] *)
Definition promote (other : pyobj) : Expression :=
  match other with
  | Num n => Constant (Num n)
  | Obj e => e
  end.

Definition __add__ (self : Expression) (other : pyobj) : Expression :=
  Addition self (promote other).

Definition __radd__ (self : Expression) (other : pyobj) : Expression :=
  __add__ self other.

Definition __mul__ (self : Expression) (other : pyobj) : Expression :=
  Multiplication self (promote other).

Definition __rmul__ (self : Expression) (other : pyobj) : Expression :=
  __mul__ self other.

Definition __truediv__ (self : Expression) (other : pyobj) : Expression :=
  Division self (promote other).

(** The promoted operand is wrapped in [Constant] once more. *)
Definition __rtruediv__ (self : Expression) (other : pyobj) : Expression :=
  Division (Constant (Obj (promote other))) self.

(** Defined by the class [Variable] only. *)
Definition __pow__ (self : Expression) (other : pyobj) : Expression :=
  Power self (promote other).

(** [l op r] with an expression on the left.  The interpreter looks the
    method up on the class of [l]; the base class has no [__sub__] and
    no class has a reflected [__rsub__] or [__rpow__], so those
    operators end in [TypeError]. *)
Definition binop (o : operator) (l : Expression) (r : pyobj) : result Expression :=
  match o with
  | OpAdd => Ok (__add__ l r)
  | OpSub => Raise TypeError
  | OpMul => Ok (__mul__ l r)
  | OpDiv => Ok (__truediv__ l r)
  | OpPow =>
      match l with
      | Var _ => Ok (__pow__ l r)
      | _ => Raise TypeError
      end
  end.

(** [k op e] with a number on the left: the number's own method
    answers [NotImplemented] and the reflected method of [e] is tried. *)
Definition rbinop (o : operator) (k : number) (e : Expression) : result Expression :=
  match o with
  | OpAdd => Ok (__radd__ e (Num k))
  | OpSub => Raise TypeError
  | OpMul => Ok (__rmul__ e (Num k))
  | OpDiv => Ok (__rtruediv__ e (Num k))
  | OpPow => Raise TypeError
  end.

(** [value - 1], for whatever object [value] is. *)
Definition minus_one (value : pyobj) : result pyobj :=
  match value with
  | Num n => Ok (Num (number_sub_one n))
  | Obj e => r <- binop OpSub e (Num (PyInt 1)) ;; Ok (Obj r)
  end.

Definition non_constant_msg : string :=
  "Non-constant exponents are not supported".

(** The method [derivative], dispatched on the class of [self].
    Arguments are evaluated left to right and the first exception
    aborts the call. *)
Fixpoint derivative (self : Expression) : result Expression :=
  match self with
  | Var _ => Ok (Constant (Num (PyInt 1)))
  | Constant _ => Ok (Constant (Num (PyInt 0)))
  | Addition l r =>
      dl <- derivative l ;;
      dr <- derivative r ;;
      binop OpAdd dl (Obj dr)
  | Multiplication l r =>
      dl <- derivative l ;;
      dr <- derivative r ;;
      Ok (Addition (Multiplication dl r) (Multiplication l dr))
  | Division l r =>
      dl <- derivative l ;;
      dr <- derivative r ;;
      let numerator := Subtraction (Multiplication dl r) (Multiplication l dr) in
      let denominator := Multiplication r r in
      Ok (Division numerator denominator)
  | Subtraction l r =>
      dl <- derivative l ;;
      dr <- derivative r ;;
      binop OpSub dl (Obj dr)
  | Power base exponent =>
      match exponent with
      | Constant value =>
          v <- minus_one value ;;
          let new_exponent := Constant v in
          db <- derivative base ;;
          Ok (Multiplication (Multiplication exponent (Power base new_exponent)) db)
      | _ => Raise (NotImplementedError non_constant_msg)
      end
  end.

(** [__repr__] / [__str__]: the f-strings format each child with
    [str], which every class answers with the same text as [repr]. *)
Fixpoint __repr__ (float_repr : spec_float -> string) (self : Expression) : string :=
  let infix o l r :=
    "(" ++ __repr__ float_repr l ++ " " ++ symbol o ++ " " ++ __repr__ float_repr r ++ ")" in
  match self with
  | Var name => name
  | Constant value =>
      match value with
      | Num n => str_number float_repr n
      | Obj e => __repr__ float_repr e
      end
  | Addition l r => infix OpAdd l r
  | Multiplication l r => infix OpMul l r
  | Division l r => infix OpDiv l r
  | Subtraction l r => infix OpSub l r
  | Power base exponent => infix OpPow base exponent
  end.

(** The attribute [value]; only a [Constant] has one. *)
Definition value_of (e : Expression) : option pyobj :=
  match e with
  | Constant v => Some v
  | _ => None
  end.

(** A payload that is a finite real number. *)
Definition finite_real (v : pyobj) : bool :=
  match v with
  | Num n => number_is_finite n
  | Obj _ => false
  end.

(** Every [Constant] node of the tree holds a finite real number. *)
Fixpoint constants_finite (e : Expression) : bool :=
  match e with
  | Var _ => true
  | Constant v => finite_real v
  | Addition l r | Multiplication l r | Division l r
  | Subtraction l r | Power l r => constants_finite l && constants_finite r
  end.

Definition is_Constant (e : Expression) : bool :=
  match e with
  | Constant _ => true
  | _ => false
  end.

Definition is_Variable (e : Expression) : bool :=
  match e with
  | Var _ => true
  | _ => false
  end.

(** [Calls e n]: the evaluation of [derivative] on [e] invokes
    [derivative] on the node [n] (possibly [e] itself).  The left
    operand is always differentiated; the right operand only once the
    left one has returned; the base of a [Power] only once [value - 1]
    has been computed. *)
Inductive Calls : Expression -> Expression -> Prop :=
| calls_self e : Calls e e
| calls_add_l l r n : Calls l n -> Calls (Addition l r) n
| calls_add_r l r dl n :
    derivative l = Ok dl -> Calls r n -> Calls (Addition l r) n
| calls_mul_l l r n : Calls l n -> Calls (Multiplication l r) n
| calls_mul_r l r dl n :
    derivative l = Ok dl -> Calls r n -> Calls (Multiplication l r) n
| calls_div_l l r n : Calls l n -> Calls (Division l r) n
| calls_div_r l r dl n :
    derivative l = Ok dl -> Calls r n -> Calls (Division l r) n
| calls_sub_l l r n : Calls l n -> Calls (Subtraction l r) n
| calls_sub_r l r dl n :
    derivative l = Ok dl -> Calls r n -> Calls (Subtraction l r) n
| calls_pow b v w n :
    minus_one v = Ok w -> Calls b n -> Calls (Power b (Constant v)) n.

(** [__repr__] under the interpreter's limits: [frames] is the number
    of nested calls of [__repr__] / [__str__] that the interpreter
    still allows, each node printed taking one; [str] of an [int] is
    limited in digits.  The children print left to right and the first
    exception ends the call. *)
Fixpoint render (float_repr : spec_float -> string) (frames : nat)
         (self : Expression) : result string :=
  match frames with
  | O => Raise RecursionError
  | S k =>
      let infix o l r :=
        a <- render float_repr k l ;;
        b <- render float_repr k r ;;
        Ok ("(" ++ a ++ " " ++ symbol o ++ " " ++ b ++ ")") in
      match self with
      | Var name => Ok name
      | Constant value =>
          match value with
          | Num n => str_number_limited float_repr n
          | Obj e => render float_repr k e
          end
      | Addition l r => infix OpAdd l r
      | Multiplication l r => infix OpMul l r
      | Division l r => infix OpDiv l r
      | Subtraction l r => infix OpSub l r
      | Power base exponent => infix OpPow base exponent
      end
  end.

(** The depth of the calls that printing a tree makes, the objects held
    by constants included. *)
Fixpoint height (e : Expression) : nat :=
  match e with
  | Var _ => 1
  | Constant value =>
      match value with
      | Num _ => 1
      | Obj o => S (height o)
      end
  | Addition l r | Multiplication l r | Division l r
  | Subtraction l r | Power l r => S (Nat.max (height l) (height r))
  end.

(** Every [int] that printing the tree meets has at most
    [max_str_digits] digits. *)
Fixpoint digits_within_limit (e : Expression) : bool :=
  match e with
  | Var _ => true
  | Constant value =>
      match value with
      | Num (PyInt z) => Nat.leb (decimal_digits z) max_str_digits
      | Num (PyFloat _) => true
      | Obj o => digits_within_limit o
      end
  | Addition l r | Multiplication l r | Division l r
  | Subtraction l r | Power l r => digits_within_limit l && digits_within_limit r
  end.

End making_sympy1.


(** ** making_sympy2.py *)

Module making_sympy2.

(** The base classes and the two added in this revision, [Sin] and
    [Cos]; [Var] is the class [Variable]. *)
Inductive Expression : Type :=
| Var (name : string)
| Constant (value : pyobj)
| Addition (left right : Expression)
| Multiplication (left right : Expression)
| Division (left right : Expression)
| Subtraction (left right : Expression)
| Power (base exponent : Expression)
| Sin (expr : Expression)
| Cos (expr : Expression)
with pyobj : Type :=
| Num (n : number)
| Obj (e : Expression).

(** [if isinstance(other, (int, float)): other = Constant(other)] *)
Definition promote (other : pyobj) : Expression :=
  match other with
  | Num n => Constant (Num n)
  | Obj e => e
  end.

Definition __add__ (self : Expression) (other : pyobj) : Expression :=
  Addition self (promote other).

Definition __radd__ (self : Expression) (other : pyobj) : Expression :=
  __add__ self other.

Definition __sub__ (self : Expression) (other : pyobj) : Expression :=
  Subtraction self (promote other).

(** The promoted operand is wrapped in [Constant] once more. *)
Definition __rsub__ (self : Expression) (other : pyobj) : Expression :=
  Subtraction (Constant (Obj (promote other))) self.

Definition __mul__ (self : Expression) (other : pyobj) : Expression :=
  Multiplication self (promote other).

Definition __rmul__ (self : Expression) (other : pyobj) : Expression :=
  __mul__ self other.

Definition __truediv__ (self : Expression) (other : pyobj) : Expression :=
  Division self (promote other).

(** As in [__rsub__], the promoted operand is wrapped again. *)
Definition __rtruediv__ (self : Expression) (other : pyobj) : Expression :=
  Division (Constant (Obj (promote other))) self.

(** Defined by the class [Variable] only. *)
Definition __pow__ (self : Expression) (other : pyobj) : Expression :=
  Power self (promote other).

(** [l op r] with an expression on the left: the method of the class of
    [l].  Only [Variable] has [__pow__] and no class has [__rpow__]. *)
Definition binop (o : operator) (l : Expression) (r : pyobj) : result Expression :=
  match o with
  | OpAdd => Ok (__add__ l r)
  | OpSub => Ok (__sub__ l r)
  | OpMul => Ok (__mul__ l r)
  | OpDiv => Ok (__truediv__ l r)
  | OpPow =>
      match l with
      | Var _ => Ok (__pow__ l r)
      | _ => Raise TypeError
      end
  end.

(** [k op e] with a number on the left: the reflected method of [e]. *)
Definition rbinop (o : operator) (k : number) (e : Expression) : result Expression :=
  match o with
  | OpAdd => Ok (__radd__ e (Num k))
  | OpSub => Ok (__rsub__ e (Num k))
  | OpMul => Ok (__rmul__ e (Num k))
  | OpDiv => Ok (__rtruediv__ e (Num k))
  | OpPow => Raise TypeError
  end.

(** [value - 1], for whatever object [value] is. *)
Definition minus_one (value : pyobj) : result pyobj :=
  match value with
  | Num n => Ok (Num (number_sub_one n))
  | Obj e => r <- binop OpSub e (Num (PyInt 1)) ;; Ok (Obj r)
  end.

Definition non_constant_msg : string :=
  "Non-constant exponents are not supported".

(** The method [derivative], dispatched on the class of [self]. *)
Fixpoint derivative (self : Expression) : result Expression :=
  match self with
  | Var _ => Ok (Constant (Num (PyInt 1)))
  | Constant _ => Ok (Constant (Num (PyInt 0)))
  | Addition l r =>
      dl <- derivative l ;;
      dr <- derivative r ;;
      binop OpAdd dl (Obj dr)
  | Multiplication l r =>
      dl <- derivative l ;;
      dr <- derivative r ;;
      Ok (Addition (Multiplication dl r) (Multiplication l dr))
  | Division l r =>
      dl <- derivative l ;;
      dr <- derivative r ;;
      let numerator := Subtraction (Multiplication dl r) (Multiplication l dr) in
      let denominator := Multiplication r r in
      Ok (Division numerator denominator)
  | Subtraction l r =>
      dl <- derivative l ;;
      dr <- derivative r ;;
      binop OpSub dl (Obj dr)
  | Power base exponent =>
      match exponent with
      | Constant value =>
          v <- minus_one value ;;
          let new_exponent := Constant v in
          db <- derivative base ;;
          Ok (Multiplication (Multiplication exponent (Power base new_exponent)) db)
      | _ => Raise (NotImplementedError non_constant_msg)
      end
  | Sin expr =>
      de <- derivative expr ;;
      Ok (Multiplication (Cos expr) de)
  | Cos expr =>
      de <- derivative expr ;;
      Ok (Multiplication (Multiplication (Constant (Num (PyInt (-1)))) (Sin expr)) de)
  end.

(** [__repr__] / [__str__] *)
Fixpoint __repr__ (float_repr : spec_float -> string) (self : Expression) : string :=
  let infix o l r :=
    "(" ++ __repr__ float_repr l ++ " " ++ symbol o ++ " " ++ __repr__ float_repr r ++ ")" in
  match self with
  | Var name => name
  | Constant value =>
      match value with
      | Num n => str_number float_repr n
      | Obj e => __repr__ float_repr e
      end
  | Addition l r => infix OpAdd l r
  | Multiplication l r => infix OpMul l r
  | Division l r => infix OpDiv l r
  | Subtraction l r => infix OpSub l r
  | Power base exponent => infix OpPow base exponent
  | Sin expr => "sin(" ++ __repr__ float_repr expr ++ ")"
  | Cos expr => "cos(" ++ __repr__ float_repr expr ++ ")"
  end.

(** The attribute [value]; only a [Constant] has one. *)
Definition value_of (e : Expression) : option pyobj :=
  match e with
  | Constant v => Some v
  | _ => None
  end.

(** A payload that is a finite real number. *)
Definition finite_real (v : pyobj) : bool :=
  match v with
  | Num n => number_is_finite n
  | Obj _ => false
  end.

(** Every [Constant] node of the tree holds a finite real number. *)
Fixpoint constants_finite (e : Expression) : bool :=
  match e with
  | Var _ => true
  | Constant v => finite_real v
  | Addition l r | Multiplication l r | Division l r
  | Subtraction l r | Power l r => constants_finite l && constants_finite r
  | Sin u | Cos u => constants_finite u
  end.

Definition is_Constant (e : Expression) : bool :=
  match e with
  | Constant _ => true
  | _ => false
  end.

Definition is_Variable (e : Expression) : bool :=
  match e with
  | Var _ => true
  | _ => false
  end.

(** [Calls e n]: the evaluation of [derivative] on [e] invokes
    [derivative] on the node [n] (possibly [e] itself).  The left
    operand is always differentiated; the right operand only once the
    left one has returned; the base of a [Power] only once [value - 1]
    has been computed. *)
Inductive Calls : Expression -> Expression -> Prop :=
| calls_self e : Calls e e
| calls_add_l l r n : Calls l n -> Calls (Addition l r) n
| calls_add_r l r dl n :
    derivative l = Ok dl -> Calls r n -> Calls (Addition l r) n
| calls_mul_l l r n : Calls l n -> Calls (Multiplication l r) n
| calls_mul_r l r dl n :
    derivative l = Ok dl -> Calls r n -> Calls (Multiplication l r) n
| calls_div_l l r n : Calls l n -> Calls (Division l r) n
| calls_div_r l r dl n :
    derivative l = Ok dl -> Calls r n -> Calls (Division l r) n
| calls_sub_l l r n : Calls l n -> Calls (Subtraction l r) n
| calls_sub_r l r dl n :
    derivative l = Ok dl -> Calls r n -> Calls (Subtraction l r) n
| calls_pow b v w n :
    minus_one v = Ok w -> Calls b n -> Calls (Power b (Constant v)) n
| calls_sin u n : Calls u n -> Calls (Sin u) n
| calls_cos u n : Calls u n -> Calls (Cos u) n.

(** [__repr__] under the interpreter's limits: [frames] is the number
    of nested calls of [__repr__] / [__str__] that the interpreter
    still allows, each node printed taking one; [str] of an [int] is
    limited in digits.  The children print left to right and the first
    exception ends the call. *)
Fixpoint render (float_repr : spec_float -> string) (frames : nat)
         (self : Expression) : result string :=
  match frames with
  | O => Raise RecursionError
  | S k =>
      let infix o l r :=
        a <- render float_repr k l ;;
        b <- render float_repr k r ;;
        Ok ("(" ++ a ++ " " ++ symbol o ++ " " ++ b ++ ")") in
      match self with
      | Var name => Ok name
      | Constant value =>
          match value with
          | Num n => str_number_limited float_repr n
          | Obj e => render float_repr k e
          end
      | Addition l r => infix OpAdd l r
      | Multiplication l r => infix OpMul l r
      | Division l r => infix OpDiv l r
      | Subtraction l r => infix OpSub l r
      | Power base exponent => infix OpPow base exponent
      | Sin expr => e <- render float_repr k expr ;; Ok ("sin(" ++ e ++ ")")
      | Cos expr => e <- render float_repr k expr ;; Ok ("cos(" ++ e ++ ")")
      end
  end.

(** The depth of the calls that printing a tree makes, the objects held
    by constants included. *)
Fixpoint height (e : Expression) : nat :=
  match e with
  | Var _ => 1
  | Constant value =>
      match value with
      | Num _ => 1
      | Obj o => S (height o)
      end
  | Addition l r | Multiplication l r | Division l r
  | Subtraction l r | Power l r => S (Nat.max (height l) (height r))
  | Sin u | Cos u => S (height u)
  end.

(** Every [int] that printing the tree meets has at most
    [max_str_digits] digits. *)
Fixpoint digits_within_limit (e : Expression) : bool :=
  match e with
  | Var _ => true
  | Constant value =>
      match value with
      | Num (PyInt z) => Nat.leb (decimal_digits z) max_str_digits
      | Num (PyFloat _) => true
      | Obj o => digits_within_limit o
      end
  | Addition l r | Multiplication l r | Division l r
  | Subtraction l r | Power l r => digits_within_limit l && digits_within_limit r
  | Sin u | Cos u => digits_within_limit u
  end.

(** The boolean reading of "[derivative] reaches a [Power] node whose
    exponent is not a [Constant]". *)
Fixpoint symbolic_power (e : Expression) : bool :=
  match e with
  | Var _ | Constant _ => false
  | Addition l r | Multiplication l r | Division l r | Subtraction l r =>
      symbolic_power l || symbolic_power r
  | Power b ex => if is_Constant ex then symbolic_power b else true
  | Sin u | Cos u => symbolic_power u
  end.

End making_sympy2.


(** ** Notions used to state properties of the programs *)

(** Counting one character in a text. *)
Fixpoint occurrences (c : Ascii.ascii) (s : string) : nat :=
  match s with
  | EmptyString => 0
  | String a s' => (if Ascii.eqb a c then 1 else 0) + occurrences c s'
  end.

Module Tree1.

Import making_sympy1.

(** Trees on which every step of [derivative] goes through: no
    [Subtraction] node, and every exponent a [Constant] holding a
    number. *)
Fixpoint derivable (e : Expression) : bool :=
  match e with
  | Var _ | Constant _ => true
  | Addition l r | Multiplication l r | Division l r => derivable l && derivable r
  | Subtraction _ _ => false
  | Power b ex =>
      match ex with
      | Constant (Num _) => derivable b
      | _ => false
      end
  end.

(** Some [Power] node met by [derivative] has an exponent that is not a
    [Constant]. *)
Fixpoint symbolic_power (e : Expression) : bool :=
  match e with
  | Var _ | Constant _ => false
  | Addition l r | Multiplication l r | Division l r | Subtraction l r =>
      symbolic_power l || symbolic_power r
  | Power b ex => if is_Constant ex then symbolic_power b else true
  end.

(** The same tree in the classes of the extended program. *)
Fixpoint lift (e : Expression) : making_sympy2.Expression :=
  match e with
  | Var name => making_sympy2.Var name
  | Constant value =>
      making_sympy2.Constant
        match value with
        | Num n => making_sympy2.Num n
        | Obj o => making_sympy2.Obj (lift o)
        end
  | Addition l r => making_sympy2.Addition (lift l) (lift r)
  | Multiplication l r => making_sympy2.Multiplication (lift l) (lift r)
  | Division l r => making_sympy2.Division (lift l) (lift r)
  | Subtraction l r => making_sympy2.Subtraction (lift l) (lift r)
  | Power b ex => making_sympy2.Power (lift b) (lift ex)
  end.

Definition lift_obj (v : pyobj) : making_sympy2.pyobj :=
  match v with
  | Num n => making_sympy2.Num n
  | Obj o => making_sympy2.Obj (lift o)
  end.

End Tree1.

Module Tree2.

Import making_sympy2.

(** Number of nodes; a [Constant] is one node whatever it holds. *)
Fixpoint size (e : Expression) : nat :=
  match e with
  | Var _ | Constant _ => 1
  | Addition l r | Multiplication l r | Division l r
  | Subtraction l r | Power l r => S (size l + size r)
  | Sin u | Cos u => S (size u)
  end.

(** Renaming every variable, also inside the objects held by constants. *)
Fixpoint rename (f : string -> string) (e : Expression) : Expression :=
  match e with
  | Var name => Var (f name)
  | Constant value =>
      Constant
        match value with
        | Num n => Num n
        | Obj o => Obj (rename f o)
        end
  | Addition l r => Addition (rename f l) (rename f r)
  | Multiplication l r => Multiplication (rename f l) (rename f r)
  | Division l r => Division (rename f l) (rename f r)
  | Subtraction l r => Subtraction (rename f l) (rename f r)
  | Power b ex => Power (rename f b) (rename f ex)
  | Sin u => Sin (rename f u)
  | Cos u => Cos (rename f u)
  end.

(** Every [Constant] of the tree holds an [int]. *)
Fixpoint int_constants (e : Expression) : bool :=
  match e with
  | Var _ => true
  | Constant (Num (PyInt _)) => true
  | Constant _ => false
  | Addition l r | Multiplication l r | Division l r
  | Subtraction l r | Power l r => int_constants l && int_constants r
  | Sin u | Cos u => int_constants u
  end.

(** [e.derivative().derivative()...], [n] times. *)
Fixpoint derivative_n (n : nat) (e : Expression) : result Expression :=
  match n with
  | O => Ok e
  | S k => d <- derivative e ;; derivative_n k d
  end.

(** The nodes that [__repr__] prints with a pair of parentheses, counted
    through the objects held by constants, which it prints too. *)
Fixpoint bracketed (e : Expression) : nat :=
  match e with
  | Var _ => 0
  | Constant value =>
      match value with
      | Num _ => 0
      | Obj o => bracketed o
      end
  | Addition l r | Multiplication l r | Division l r
  | Subtraction l r | Power l r => S (bracketed l + bracketed r)
  | Sin u | Cos u => S (bracketed u)
  end.

(** A test on the text of every leaf that [__repr__] prints: the names
    of variables and the texts of floats. *)
Fixpoint leaves_ok (float_repr : spec_float -> string) (ok : string -> bool)
         (e : Expression) : bool :=
  match e with
  | Var name => ok name
  | Constant value =>
      match value with
      | Num (PyInt _) => true
      | Num (PyFloat f) => ok (float_repr f)
      | Obj o => leaves_ok float_repr ok o
      end
  | Addition l r | Multiplication l r | Division l r
  | Subtraction l r | Power l r =>
      leaves_ok float_repr ok l && leaves_ok float_repr ok r
  | Sin u | Cos u => leaves_ok float_repr ok u
  end.

Definition no_parenthesis (s : string) : bool :=
  (occurrences "("%char s =? 0)%nat && (occurrences ")"%char s =? 0)%nat.

End Tree2.

(** ** The driver, [output_derivative] *)

(** What [print] has written, one text per call, and how the call ended. *)
Definition run : Type := (list string * result unit)%type.

Definition newline : string := String (Ascii.ascii_of_nat 10) EmptyString.

Module driver1.

Import making_sympy1.

(** The body of [output_derivative] after [expr = input_expression()];
    [expr] is what that call returned, [None] or an expression (an
    instance of these classes is always true in [if expr:]). *)
Definition output_derivative (float_repr : spec_float -> string)
           (expr : option Expression) : run :=
  match expr with
  | None => (nil, Ok tt)
  | Some e =>
      let line1 := newline ++ "f(x) = " ++ __repr__ float_repr e in
      match derivative e with
      | Raise err => (cons line1 nil, Raise err)
      | Ok d =>
          let line2 := "f'(x) = " ++ __repr__ float_repr d ++ newline in
          (cons line1 (cons line2 nil), Ok tt)
      end
  end.

End driver1.

Module driver2.

Import making_sympy2.

(** As in the base program. *)
Definition output_derivative (float_repr : spec_float -> string)
           (expr : option Expression) : run :=
  match expr with
  | None => (nil, Ok tt)
  | Some e =>
      let line1 := newline ++ "f(x) = " ++ __repr__ float_repr e in
      match derivative e with
      | Raise err => (cons line1 nil, Raise err)
      | Ok d =>
          let line2 := "f'(x) = " ++ __repr__ float_repr d ++ newline in
          (cons line1 (cons line2 nil), Ok tt)
      end
  end.

End driver2.


(** * Properties *)

(** ** Auxiliary facts *)

Lemma bind_Ok_inv {A B : Type} (m : result A) (k : A -> result B) (b : B) :
  bind m k = Ok b -> exists a, m = Ok a /\ k a = Ok b.
Proof.
  destruct m as [a|e]; simpl; intros H.
  - exists a; split; [reflexivity | exact H].
  - discriminate H.
Qed.

Lemma bind_Raise_inv {A B : Type} (m : result A) (k : A -> result B) (e : exn) :
  bind m k = Raise e -> m = Raise e \/ exists a, m = Ok a /\ k a = Raise e.
Proof.
  destruct m as [a|e']; simpl; intros H.
  - right; exists a; split; [reflexivity | exact H].
  - left; injection H as ->; reflexivity.
Qed.

(** In the extended program [value - 1] never raises. *)
Lemma minus_one_v2_Ok (v : making_sympy2.pyobj) :
  exists w, making_sympy2.minus_one v = Ok w.
Proof.
  destruct v as [n|e]; simpl; eexists; reflexivity.
Qed.

(** The outcome of [derivative] in the extended program is decided by
    [symbolic_power]. *)
Lemma derivative_v2_outcome (e : making_sympy2.Expression) :
  (making_sympy2.symbolic_power e = true /\
   making_sympy2.derivative e =
     Raise (NotImplementedError making_sympy2.non_constant_msg))
  \/
  (making_sympy2.symbolic_power e = false /\
   exists t, making_sympy2.derivative e = Ok t).
Proof.
  induction e as [name|v|l IHl r IHr|l IHl r IHr|l IHl r IHr|l IHl r IHr
                 |b IHb ex _|u IHu|u IHu]; simpl.
  1-2: right; split; [reflexivity | eexists; reflexivity].
  1-4: destruct IHl as [[Sl Dl]|[Sl [tl Dl]]]; rewrite Sl, Dl; simpl;
       [ left; split; reflexivity
       | destruct IHr as [[Sr Dr]|[Sr [tr Dr]]]; rewrite Sr, Dr; simpl;
         [ left; split; reflexivity
         | right; split; [reflexivity | eexists; reflexivity] ] ].
  - destruct ex; simpl; try (left; split; reflexivity).
    destruct (minus_one_v2_Ok value) as [w Hw]; rewrite Hw; simpl.
    destruct IHb as [[Sb Db]|[Sb [tb Db]]]; rewrite Db; simpl.
    + left; split; [exact Sb | reflexivity].
    + right; split; [exact Sb | eexists; reflexivity].
  - destruct IHu as [[Su Du]|[Su [tu Du]]]; rewrite Du; simpl.
    + left; split; [exact Su | reflexivity].
    + right; split; [exact Su | eexists; reflexivity].
  - destruct IHu as [[Su Du]|[Su [tu Du]]]; rewrite Du; simpl.
    + left; split; [exact Su | reflexivity].
    + right; split; [exact Su | eexists; reflexivity].
Qed.

(** [symbolic_power] decides whether [derivative] reaches a [Power]
    node with a non-[Constant] exponent. *)
Lemma symbolic_power_Calls (e : making_sympy2.Expression) :
  making_sympy2.symbolic_power e = true <->
  exists b ex, making_sympy2.Calls e (making_sympy2.Power b ex) /\
               making_sympy2.is_Constant ex = false.
Proof.
  split.
  - induction e as [name|v|l IHl r IHr|l IHl r IHr|l IHl r IHr|l IHl r IHr
                   |b IHb ex _|u IHu|u IHu]; simpl; intros H;
      try discriminate H.
    1-4: destruct (derivative_v2_outcome l) as [[Sl _]|[Sl [dl Dl]]];
         [ destruct (IHl Sl) as (b & ex & C & N); exists b, ex; split; auto;
           constructor; exact C
         | rewrite Sl in H; simpl in H;
           destruct (IHr H) as (b & ex & C & N); exists b, ex; split; auto;
           solve [ eapply making_sympy2.calls_add_r; eassumption
                 | eapply making_sympy2.calls_mul_r; eassumption
                 | eapply making_sympy2.calls_div_r; eassumption
                 | eapply making_sympy2.calls_sub_r; eassumption ] ].
    + destruct (making_sympy2.is_Constant ex) eqn:K.
      * destruct ex; try discriminate K.
        destruct (IHb H) as (b' & ex' & C & N).
        destruct (minus_one_v2_Ok value) as [w Hw].
        exists b', ex'; split; [|exact N].
        eapply making_sympy2.calls_pow; eassumption.
      * exists b, ex; split; [apply making_sympy2.calls_self | exact K].
    + destruct (IHu H) as (b & ex & C & N).
      exists b, ex; split; [apply making_sympy2.calls_sin; exact C | exact N].
    + destruct (IHu H) as (b & ex & C & N).
      exists b, ex; split; [apply making_sympy2.calls_cos; exact C | exact N].
  - intros (b & ex & C & N).
    remember (making_sympy2.Power b ex) as p eqn:Ep.
    induction C; subst; simpl;
      try (rewrite IHC by reflexivity; simpl; try rewrite orb_true_r; reflexivity).
    rewrite N; reflexivity.
Qed.

(** In the base program, too, [NotImplementedError] is raised exactly
    when [derivative] reaches a [Power] node with a non-[Constant]
    exponent. *)
Lemma derivative_v1_NotImplemented (e : making_sympy1.Expression) :
  making_sympy1.derivative e =
    Raise (NotImplementedError making_sympy1.non_constant_msg) <->
  exists b ex, making_sympy1.Calls e (making_sympy1.Power b ex) /\
               making_sympy1.is_Constant ex = false.
Proof.
  split.
  - induction e as [name|v|l IHl r IHr|l IHl r IHr|l IHl r IHr|l IHl r IHr
                   |b IHb ex _]; simpl; intros H; try discriminate H.
    1-4: apply bind_Raise_inv in H; destruct H as [H|(dl & Dl & H)];
         [ destruct (IHl H) as (b & ex & C & N); exists b, ex; split; auto;
           constructor; exact C
         | apply bind_Raise_inv in H; destruct H as [H|(dr & _ & H)];
           [ destruct (IHr H) as (b & ex & C & N); exists b, ex; split; auto;
             solve [ eapply making_sympy1.calls_add_r; eassumption
                   | eapply making_sympy1.calls_mul_r; eassumption
                   | eapply making_sympy1.calls_div_r; eassumption
                   | eapply making_sympy1.calls_sub_r; eassumption ]
           | discriminate H ] ].
    destruct ex as [name|v|? ?|? ?|? ?|? ?|? ?];
      try (exists b; eexists; split; [apply making_sympy1.calls_self | reflexivity]).
    apply bind_Raise_inv in H; destruct H as [H|(w & Hw & H)].
    + destruct v; simpl in H; discriminate H.
    + apply bind_Raise_inv in H; destruct H as [H|(db & _ & H)]; [|discriminate H].
      destruct (IHb H) as (b' & ex' & C & N).
      exists b', ex'; split; [|exact N].
      eapply making_sympy1.calls_pow; eassumption.
  - intros (b & ex & C & N).
    remember (making_sympy1.Power b ex) as p eqn:Ep.
    induction C; subst; simpl;
      try (rewrite IHC by reflexivity; reflexivity);
      try (rewrite H, IHC by reflexivity; reflexivity).
    destruct ex; try discriminate N; reflexivity.
Qed.

(** The base program's [derivative] returns a tree on every expression
    without a [Subtraction] node whose exponents are [Constant]s holding
    numbers. *)
Lemma derivative_v1_derivable (e : making_sympy1.Expression) :
  Tree1.derivable e = true -> exists d, making_sympy1.derivative e = Ok d.
Proof.
  induction e as [name|v|l IHl r IHr|l IHl r IHr|l IHl r IHr|l IHl r IHr
                 |b IHb ex _]; simpl; intros H; try discriminate H;
    try (eexists; reflexivity).
  1-3: apply andb_true_iff in H; destruct H as [Hl Hr];
       destruct (IHl Hl) as [dl Dl]; destruct (IHr Hr) as [dr Dr];
       rewrite Dl, Dr; simpl; eexists; reflexivity.
  destruct ex as [?|[n|o]| | | | | ]; try discriminate H.
  destruct (IHb H) as [db Db]; simpl; rewrite Db; simpl; eexists; reflexivity.
Qed.

(** The extended program's [derivative] returns a tree on every
    expression in which it meets no symbolic exponent. *)
Lemma derivative_v2_not_symbolic (e : making_sympy2.Expression) :
  making_sympy2.symbolic_power e = false ->
  exists d, making_sympy2.derivative e = Ok d.
Proof.
  intros S; destruct (derivative_v2_outcome e) as [[S' _]|[_ T]]; [|exact T].
  rewrite S in S'; discriminate S'.
Qed.

(** The recursion of the base program on [(x - 1) + x ** x] ends in the
    left operand and never reaches the power. *)
Example recursion_ends_at_first_exception :
  making_sympy1.derivative
    (making_sympy1.Addition
       (making_sympy1.Subtraction (making_sympy1.Var "x")
                                  (making_sympy1.Constant (making_sympy1.Num (PyInt 1))))
       (making_sympy1.Power (making_sympy1.Var "x") (making_sympy1.Var "x")))
  = Raise TypeError /\
  ~ exists b ex,
      making_sympy1.Calls
        (making_sympy1.Addition
           (making_sympy1.Subtraction (making_sympy1.Var "x")
                                      (making_sympy1.Constant (making_sympy1.Num (PyInt 1))))
           (making_sympy1.Power (making_sympy1.Var "x") (making_sympy1.Var "x")))
        (making_sympy1.Power b ex) /\
      making_sympy1.is_Constant ex = false.
Proof.
  split; [reflexivity|].
  intros H; apply derivative_v1_NotImplemented in H; discriminate H.
Qed.

(** ** The programs on sample inputs *)

(** [x ** 3] and its derivative, as the programs print them. *)
Example power_rule_printed :
  making_sympy1.binop OpPow (making_sympy1.Var "x") (making_sympy1.Num (PyInt 3)) =
    Ok (making_sympy1.Power (making_sympy1.Var "x")
                            (making_sympy1.Constant (making_sympy1.Num (PyInt 3)))) /\
  (d <- making_sympy1.derivative
          (making_sympy1.Power (making_sympy1.Var "x")
                               (making_sympy1.Constant (making_sympy1.Num (PyInt 3)))) ;;
   Ok (making_sympy1.__repr__ (fun _ => "") d)) =
    Ok "((3 * (x ** 2)) * 1)".
Proof. split; reflexivity. Qed.

(** [sin(x ** 2)] and its derivative in the extended program. *)
Example chain_rule_printed :
  (d <- making_sympy2.derivative
          (making_sympy2.Sin
             (making_sympy2.Power (making_sympy2.Var "x")
                                  (making_sympy2.Constant (making_sympy2.Num (PyInt 2))))) ;;
   Ok (making_sympy2.__repr__ (fun _ => "") d)) =
    Ok "(cos((x ** 2)) * ((2 * (x ** 1)) * 1))".
Proof. reflexivity. Qed.

(** [1 / x] prints as if the numerator were [Constant(1)]. *)
Example reciprocal_printed :
  (q <- making_sympy2.rbinop OpDiv (PyInt 1) (making_sympy2.Var "x") ;;
   Ok (making_sympy2.__repr__ (fun _ => "") q)) = Ok "(1 / x)".
Proof. reflexivity. Qed.

(** ** Linearity *)

(** C1.  [derivative] of an [Addition] is the [Addition] of the
    derivatives, in both programs, and in the extended program the
    derivative of a [Subtraction] is the [Subtraction] of the
    derivatives.  In the base program, however, [Subtraction.derivative]
    applies [-] to two expressions whose class has no [__sub__]: it
    returns no tree for any operands, and ends in [TypeError] as soon as
    both operands can be differentiated. *)
Theorem derivative_linearity :
  (forall a b,
      making_sympy1.derivative (making_sympy1.Addition a b) =
      da <- making_sympy1.derivative a ;;
      db <- making_sympy1.derivative b ;;
      Ok (making_sympy1.Addition da db)) /\
  (forall a b,
      making_sympy2.derivative (making_sympy2.Addition a b) =
      da <- making_sympy2.derivative a ;;
      db <- making_sympy2.derivative b ;;
      Ok (making_sympy2.Addition da db)) /\
  (forall a b,
      making_sympy2.derivative (making_sympy2.Subtraction a b) =
      da <- making_sympy2.derivative a ;;
      db <- making_sympy2.derivative b ;;
      Ok (making_sympy2.Subtraction da db)) /\
  (forall a b t,
      making_sympy1.derivative (making_sympy1.Subtraction a b) <> Ok t) /\
  (forall a b da db,
      making_sympy1.derivative a = Ok da ->
      making_sympy1.derivative b = Ok db ->
      making_sympy1.derivative (making_sympy1.Subtraction a b) = Raise TypeError) /\
  making_sympy1.derivative
    (making_sympy1.Subtraction (making_sympy1.Var "x")
                               (making_sympy1.Constant (making_sympy1.Num (PyInt 1))))
  = Raise TypeError.
Proof.
  split; [|split; [|split; [|split; [|split]]]].
  - intros a b; simpl.
    destruct (making_sympy1.derivative a) as [da|err]; simpl; [|reflexivity].
    destruct (making_sympy1.derivative b) as [db|err]; reflexivity.
  - intros a b; simpl.
    destruct (making_sympy2.derivative a) as [da|err]; simpl; [|reflexivity].
    destruct (making_sympy2.derivative b) as [db|err]; reflexivity.
  - intros a b; simpl.
    destruct (making_sympy2.derivative a) as [da|err]; simpl; [|reflexivity].
    destruct (making_sympy2.derivative b) as [db|err]; reflexivity.
  - intros a b t H; simpl in H.
    apply bind_Ok_inv in H; destruct H as (da & _ & H).
    apply bind_Ok_inv in H; destruct H as (db & _ & H).
    discriminate H.
  - intros a b da db Ha Hb; simpl; rewrite Ha, Hb; reflexivity.
  - reflexivity.
Qed.

(** ** The error of [derivative] *)

(** C2, counterexample.  A core operation other than [derivative] can
    fail, and with a different error: [(x + 1) ** 2] ends in [TypeError]
    in both programs, because only [Variable] defines [__pow__]. *)
Lemma power_of_sum_raises_TypeError :
  making_sympy1.binop OpPow
    (making_sympy1.Addition (making_sympy1.Var "x")
                            (making_sympy1.Constant (making_sympy1.Num (PyInt 1))))
    (making_sympy1.Num (PyInt 2)) = Raise TypeError /\
  making_sympy2.binop OpPow
    (making_sympy2.Addition (making_sympy2.Var "x")
                            (making_sympy2.Constant (making_sympy2.Num (PyInt 1))))
    (making_sympy2.Num (PyInt 2)) = Raise TypeError /\
  TypeError <> NotImplementedError making_sympy2.non_constant_msg.
Proof.
  repeat split; discriminate.
Qed.

(** C2, as amended.  In both programs [derivative] raises
    [NotImplementedError] exactly when its recursion reaches a [Power]
    node whose exponent is not a [Constant], the recursion going left to
    right and ending at the first exception.  In the extended program
    it raises nothing else, and it returns a tree exactly when no such
    node is reached.  Among the other operations, [+ - * /] of the
    extended program always return a tree, whichever side the numeric
    literal is on; in both programs the power combinator ends in
    [TypeError] when its left operand is not a [Variable], a number
    included. *)
Theorem derivative_error :
  (forall e,
      making_sympy2.derivative e =
        Raise (NotImplementedError making_sympy2.non_constant_msg) <->
      exists b ex, making_sympy2.Calls e (making_sympy2.Power b ex) /\
                   making_sympy2.is_Constant ex = false) /\
  (forall e,
      making_sympy1.derivative e =
        Raise (NotImplementedError making_sympy1.non_constant_msg) <->
      exists b ex, making_sympy1.Calls e (making_sympy1.Power b ex) /\
                   making_sympy1.is_Constant ex = false) /\
  (forall e err,
      making_sympy2.derivative e = Raise err ->
      err = NotImplementedError making_sympy2.non_constant_msg) /\
  (forall e,
      (exists t, making_sympy2.derivative e = Ok t) <->
      ~ exists b ex, making_sympy2.Calls e (making_sympy2.Power b ex) /\
                     making_sympy2.is_Constant ex = false) /\
  (forall o l r, o <> OpPow -> exists t, making_sympy2.binop o l r = Ok t) /\
  (forall o k e, o <> OpPow -> exists t, making_sympy2.rbinop o k e = Ok t) /\
  (forall e other,
      making_sympy2.is_Variable e = false ->
      making_sympy2.binop OpPow e other = Raise TypeError) /\
  (forall k e, making_sympy2.rbinop OpPow k e = Raise TypeError) /\
  (forall e other,
      making_sympy1.is_Variable e = false ->
      making_sympy1.binop OpPow e other = Raise TypeError) /\
  (forall k e, making_sympy1.rbinop OpPow k e = Raise TypeError).
Proof.
  repeat match goal with |- _ /\ _ => split end.
  - intros e; rewrite <- symbolic_power_Calls.
    destruct (derivative_v2_outcome e) as [[S D]|[S [t D]]]; rewrite S, D;
      split; intros H; try reflexivity; discriminate H.
  - exact derivative_v1_NotImplemented.
  - intros e err H.
    destruct (derivative_v2_outcome e) as [[S D]|[S [t D]]]; rewrite D in H.
    + injection H as <-; reflexivity.
    + discriminate H.
  - intros e; rewrite <- symbolic_power_Calls.
    destruct (derivative_v2_outcome e) as [[S D]|[S [t D]]]; rewrite S, D; split.
    + intros [t H]; discriminate H.
    + intros H; exfalso; apply H; reflexivity.
    + intros _ H; discriminate H.
    + intros _; exists t; reflexivity.
  - intros o l r Ho; destruct o; simpl; try (eexists; reflexivity).
    exfalso; apply Ho; reflexivity.
  - intros o k e Ho; destruct o; simpl; try (eexists; reflexivity).
    exfalso; apply Ho; reflexivity.
  - intros e other He; destruct e; simpl in *; try reflexivity; discriminate He.
  - intros k e; reflexivity.
  - intros e other He; destruct e; simpl in *; try reflexivity; discriminate He.
  - intros k e; reflexivity.
Qed.

(** Both programs on [(x + x) * (x ** x)]: the left factor is
    differentiated, then the right factor raises.  The extended program
    on [sin(x) - x ** 2]: a tree is returned. *)
Lemma derivative_error_witness :
  making_sympy2.derivative
    (making_sympy2.Multiplication
       (making_sympy2.Addition (making_sympy2.Var "x") (making_sympy2.Var "x"))
       (making_sympy2.Power (making_sympy2.Var "x") (making_sympy2.Var "x")))
  = Raise (NotImplementedError making_sympy2.non_constant_msg) /\
  making_sympy1.derivative
    (making_sympy1.Multiplication
       (making_sympy1.Addition (making_sympy1.Var "x") (making_sympy1.Var "x"))
       (making_sympy1.Power (making_sympy1.Var "x") (making_sympy1.Var "x")))
  = Raise (NotImplementedError making_sympy1.non_constant_msg) /\
  exists t,
    making_sympy2.derivative
      (making_sympy2.Subtraction
         (making_sympy2.Sin (making_sympy2.Var "x"))
         (making_sympy2.Power (making_sympy2.Var "x")
                              (making_sympy2.Constant (making_sympy2.Num (PyInt 2)))))
    = Ok t.
Proof.
  destruct derivative_error as (Hiff2 & Hiff1 & _ & Hok & _).
  split; [|split].
  - apply Hiff2.
    exists (making_sympy2.Var "x"), (making_sympy2.Var "x").
    split; [|reflexivity].
    eapply making_sympy2.calls_mul_r; [reflexivity | apply making_sympy2.calls_self].
  - apply Hiff1.
    exists (making_sympy1.Var "x"), (making_sympy1.Var "x").
    split; [|reflexivity].
    eapply making_sympy1.calls_mul_r; [reflexivity | apply making_sympy1.calls_self].
  - apply Hok.
    rewrite <- symbolic_power_Calls; simpl; discriminate.
Defined.

(** ** The power combinator *)

(** C3, counterexample.  [(x + 1) ** 2] does not build
    [Power(Addition(x, 1), Constant(2))]; it builds nothing. *)
Lemma pow_on_sum_builds_no_Power :
  making_sympy1.binop OpPow
    (making_sympy1.Addition (making_sympy1.Var "x")
                            (making_sympy1.Constant (making_sympy1.Num (PyInt 1))))
    (making_sympy1.Num (PyInt 2))
  <> Ok (making_sympy1.Power
           (making_sympy1.Addition (making_sympy1.Var "x")
                                   (making_sympy1.Constant (making_sympy1.Num (PyInt 1))))
           (making_sympy1.Constant (making_sympy1.Num (PyInt 2)))) /\
  making_sympy2.binop OpPow
    (making_sympy2.Addition (making_sympy2.Var "x")
                            (making_sympy2.Constant (making_sympy2.Num (PyInt 1))))
    (making_sympy2.Num (PyInt 2))
  <> Ok (making_sympy2.Power
           (making_sympy2.Addition (making_sympy2.Var "x")
                                   (making_sympy2.Constant (making_sympy2.Num (PyInt 1))))
           (making_sympy2.Constant (making_sympy2.Num (PyInt 2)))).
Proof.
  split; simpl; discriminate.
Qed.

(** C3, as amended.  On a [Variable] leaf [v], [v ** k] with a numeric
    literal [k] builds [Power(v, Constant(k))] and [v ** e] with an
    expression [e] builds [Power(v, e)].  On every other expression the
    power combinator is undefined and ends in [TypeError]; a [Power]
    over an arbitrary base is built with the constructor. *)
Theorem pow_combinator :
  (forall name k,
      making_sympy1.binop OpPow (making_sympy1.Var name) (making_sympy1.Num k) =
      Ok (making_sympy1.Power (making_sympy1.Var name)
                              (making_sympy1.Constant (making_sympy1.Num k)))) /\
  (forall name e,
      making_sympy1.binop OpPow (making_sympy1.Var name) (making_sympy1.Obj e) =
      Ok (making_sympy1.Power (making_sympy1.Var name) e)) /\
  (forall e other,
      making_sympy1.is_Variable e = false ->
      making_sympy1.binop OpPow e other = Raise TypeError) /\
  (forall name k,
      making_sympy2.binop OpPow (making_sympy2.Var name) (making_sympy2.Num k) =
      Ok (making_sympy2.Power (making_sympy2.Var name)
                              (making_sympy2.Constant (making_sympy2.Num k)))) /\
  (forall name e,
      making_sympy2.binop OpPow (making_sympy2.Var name) (making_sympy2.Obj e) =
      Ok (making_sympy2.Power (making_sympy2.Var name) e)) /\
  (forall e other,
      making_sympy2.is_Variable e = false ->
      making_sympy2.binop OpPow e other = Raise TypeError).
Proof.
  split; [|split; [|split; [|split; [|split]]]].
  - intros name k; reflexivity.
  - intros name e; reflexivity.
  - intros e other He; destruct e; simpl in *; try reflexivity; discriminate He.
  - intros name k; reflexivity.
  - intros name e; reflexivity.
  - intros e other He; destruct e; simpl in *; try reflexivity; discriminate He.
Qed.

(** [sin(x) ** 2] in the extended program. *)
Lemma pow_combinator_witness :
  making_sympy2.binop OpPow (making_sympy2.Sin (making_sympy2.Var "x"))
                      (making_sympy2.Num (PyInt 2)) = Raise TypeError.
Proof.
  apply (proj2 (proj2 (proj2 (proj2 (proj2 pow_combinator))))).
  reflexivity.
Defined.

(** ** Constant payloads *)

(** C4, counterexample.  [Constant(float("inf"))] is built, and so is
    [x + float("nan")]; neither tree has only finite constants. *)
Lemma Constant_accepts_non_finite :
  making_sympy2.value_of
    (making_sympy2.Constant (making_sympy2.Num (PyFloat (S754_infinity false))))
  = Some (making_sympy2.Num (PyFloat (S754_infinity false))) /\
  making_sympy2.constants_finite
    (making_sympy2.Constant (making_sympy2.Num (PyFloat (S754_infinity false))))
  = false /\
  making_sympy2.binop OpAdd (making_sympy2.Var "x") (making_sympy2.Num (PyFloat S754_nan))
  = Ok (making_sympy2.Addition (making_sympy2.Var "x")
                               (making_sympy2.Constant (making_sympy2.Num (PyFloat S754_nan)))) /\
  making_sympy2.constants_finite
    (making_sympy2.Addition (making_sympy2.Var "x")
                            (making_sympy2.Constant (making_sympy2.Num (PyFloat S754_nan))))
  = false.
Proof.
  repeat split.
Qed.

(** C4, as amended.  [Constant] stores its payload unchanged and checks
    nothing: a [Constant] node holds a finite real value exactly when
    the payload it was given is one.  The operators [e + k], [e - k],
    [e * k], [e / k], [v ** k] and the reflected [k + e], [k * e],
    applied to an expression and a numeric literal, yield a tree whose
    constants are all finite exactly when the expression's constants are
    finite and the literal is finite. *)
Theorem Constant_stores_payload :
  (forall v, making_sympy1.value_of (making_sympy1.Constant v) = Some v) /\
  (forall v, making_sympy2.value_of (making_sympy2.Constant v) = Some v) /\
  (forall v,
      making_sympy1.constants_finite (making_sympy1.Constant v) =
      making_sympy1.finite_real v) /\
  (forall v,
      making_sympy2.constants_finite (making_sympy2.Constant v) =
      making_sympy2.finite_real v) /\
  (forall o e k t,
      making_sympy1.binop o e (making_sympy1.Num k) = Ok t ->
      making_sympy1.constants_finite t =
      making_sympy1.constants_finite e && number_is_finite k) /\
  (forall o e k t,
      making_sympy2.binop o e (making_sympy2.Num k) = Ok t ->
      making_sympy2.constants_finite t =
      making_sympy2.constants_finite e && number_is_finite k) /\
  (forall o e k,
      o = OpAdd \/ o = OpMul ->
      exists t,
        making_sympy1.rbinop o k e = Ok t /\
        making_sympy1.constants_finite t =
        making_sympy1.constants_finite e && number_is_finite k) /\
  (forall o e k,
      o = OpAdd \/ o = OpMul ->
      exists t,
        making_sympy2.rbinop o k e = Ok t /\
        making_sympy2.constants_finite t =
        making_sympy2.constants_finite e && number_is_finite k) /\
  (forall o e k,
      o = OpAdd \/ o = OpMul \/ o = OpDiv ->
      exists t, making_sympy1.binop o e (making_sympy1.Num k) = Ok t) /\
  (forall o e k,
      o <> OpPow ->
      exists t, making_sympy2.binop o e (making_sympy2.Num k) = Ok t).
Proof.
  repeat match goal with |- _ /\ _ => split end; try (intros v; reflexivity).
  - intros o e k t H; destruct o; simpl in H; try discriminate H;
      try (injection H as <-; reflexivity).
    destruct e; try discriminate H; injection H as <-; reflexivity.
  - intros o e k t H; destruct o; simpl in H; try discriminate H;
      try (injection H as <-; reflexivity).
    destruct e; try discriminate H; injection H as <-; reflexivity.
  - intros o e k [-> | ->]; eexists; split; reflexivity.
  - intros o e k [-> | ->]; eexists; split; reflexivity.
  - intros o e k [-> | [-> | ->]]; eexists; reflexivity.
  - intros o e k Ho; destruct o; try (eexists; reflexivity).
    exfalso; apply Ho; reflexivity.
Qed.

(** [x * 2.0] and [2.0 * x] have finite constants; [nan + x] has not. *)
Lemma Constant_stores_payload_witness :
  making_sympy2.constants_finite
    (making_sympy2.Multiplication
       (making_sympy2.Var "x")
       (making_sympy2.Constant (making_sympy2.Num (PyFloat (S754_finite false 4503599627370496 (-51))))))
  = true /\
  (exists t,
      making_sympy2.rbinop OpMul (PyFloat (S754_finite false 4503599627370496 (-51)))
                           (making_sympy2.Var "x") = Ok t /\
      making_sympy2.constants_finite t = true) /\
  (exists t,
      making_sympy1.rbinop OpAdd (PyFloat S754_nan) (making_sympy1.Var "x") = Ok t /\
      making_sympy1.constants_finite t = false).
Proof.
  destruct Constant_stores_payload as (_ & _ & _ & _ & _ & Hb2 & Hr1 & Hr2 & _).
  split; [|split].
  - exact (Hb2 OpMul (making_sympy2.Var "x")
               (PyFloat (S754_finite false 4503599627370496 (-51))) _ eq_refl).
  - exact (Hr2 OpMul (making_sympy2.Var "x")
               (PyFloat (S754_finite false 4503599627370496 (-51)))
               (or_intror eq_refl)).
  - exact (Hr1 OpAdd (making_sympy1.Var "x") (PyFloat S754_nan) (or_introl eq_refl)).
Defined.

(** ** The rules of [derivative] *)

(** C5, counterexample.  The exponent is not always decremented by
    exactly 1.  The float [1e16] is the binary64 number
    [5000000000000000 * 2], and [1e16 - 1] is [1e16] again: in both
    programs the derivative of [x ** 1e16] carries the exponent
    [10 ^ 16], not [10 ^ 16 - 1]. *)
Lemma power_rule_float_exponent_unchanged :
  let n := PyFloat (S754_finite false 5000000000000000 1) in
  valid_binary prec emax (S754_finite false 5000000000000000 1) = true /\
  number_integer n = Some (10 ^ 16)%Z /\
  making_sympy1.derivative
    (making_sympy1.Power (making_sympy1.Var "x")
                         (making_sympy1.Constant (making_sympy1.Num n))) =
  Ok (making_sympy1.Multiplication
        (making_sympy1.Multiplication
           (making_sympy1.Constant (making_sympy1.Num n))
           (making_sympy1.Power (making_sympy1.Var "x")
                                (making_sympy1.Constant (making_sympy1.Num n))))
        (making_sympy1.Constant (making_sympy1.Num (PyInt 1)))) /\
  making_sympy2.derivative
    (making_sympy2.Power (making_sympy2.Var "x")
                         (making_sympy2.Constant (making_sympy2.Num n))) =
  Ok (making_sympy2.Multiplication
        (making_sympy2.Multiplication
           (making_sympy2.Constant (making_sympy2.Num n))
           (making_sympy2.Power (making_sympy2.Var "x")
                                (making_sympy2.Constant (making_sympy2.Num n))))
        (making_sympy2.Constant (making_sympy2.Num (PyInt 1)))) /\
  number_integer (number_sub_one n) <> Some (10 ^ 16 - 1)%Z.
Proof.
  cbv zeta.
  split; [vm_compute; reflexivity|].
  split; [vm_compute; reflexivity|].
  split; [vm_compute; reflexivity|].
  split; [vm_compute; reflexivity|].
  vm_compute; discriminate.
Qed.

(** C5, as amended.  Generalized power rule: for every base [b] and
    every number [n], the derivative of [Power(b, Constant(n))] is
    [Multiplication(Multiplication(Constant(n), Power(b, Constant(n - 1))), derivative(b))];
    it is returned whenever [derivative(b)] is, for an arbitrary base,
    and an exception of [derivative(b)] is passed on.  [n - 1] is the
    subtraction of the number type of [n]: exactly [n - 1] on every
    [int], and on a [float] the binary64 difference of [n] and [1.0],
    rounded. *)
Theorem derivative_Power_Constant :
  (forall b n,
      making_sympy1.derivative
        (making_sympy1.Power b (making_sympy1.Constant (making_sympy1.Num n))) =
      db <- making_sympy1.derivative b ;;
      Ok (making_sympy1.Multiplication
            (making_sympy1.Multiplication
               (making_sympy1.Constant (making_sympy1.Num n))
               (making_sympy1.Power b
                  (making_sympy1.Constant (making_sympy1.Num (number_sub_one n)))))
            db)) /\
  (forall b n,
      making_sympy2.derivative
        (making_sympy2.Power b (making_sympy2.Constant (making_sympy2.Num n))) =
      db <- making_sympy2.derivative b ;;
      Ok (making_sympy2.Multiplication
            (making_sympy2.Multiplication
               (making_sympy2.Constant (making_sympy2.Num n))
               (making_sympy2.Power b
                  (making_sympy2.Constant (making_sympy2.Num (number_sub_one n)))))
            db)) /\
  (forall b n,
      Tree1.derivable b = true ->
      exists db,
        making_sympy1.derivative b = Ok db /\
        making_sympy1.derivative
          (making_sympy1.Power b (making_sympy1.Constant (making_sympy1.Num n))) =
        Ok (making_sympy1.Multiplication
              (making_sympy1.Multiplication
                 (making_sympy1.Constant (making_sympy1.Num n))
                 (making_sympy1.Power b
                    (making_sympy1.Constant (making_sympy1.Num (number_sub_one n)))))
              db)) /\
  (forall b n,
      making_sympy2.symbolic_power b = false ->
      exists db,
        making_sympy2.derivative b = Ok db /\
        making_sympy2.derivative
          (making_sympy2.Power b (making_sympy2.Constant (making_sympy2.Num n))) =
        Ok (making_sympy2.Multiplication
              (making_sympy2.Multiplication
                 (making_sympy2.Constant (making_sympy2.Num n))
                 (making_sympy2.Power b
                    (making_sympy2.Constant (making_sympy2.Num (number_sub_one n)))))
              db)) /\
  (forall z, number_sub_one (PyInt z) = PyInt (z - 1)) /\
  (forall z, number_integer (number_sub_one (PyInt z)) = Some (z - 1)%Z) /\
  (forall f, number_sub_one (PyFloat f) = PyFloat (SFsub prec emax f (SFone prec emax))) /\
  number_sub_one (PyFloat (S754_finite false 6755399441055744 (-51))) =
  PyFloat (S754_finite false 4503599627370496 (-51)) /\
  making_sympy1.derivative
    (making_sympy1.Power
       (making_sympy1.Addition (making_sympy1.Var "x")
                               (making_sympy1.Constant (making_sympy1.Num (PyInt 1))))
       (making_sympy1.Constant (making_sympy1.Num (PyInt 3)))) =
  Ok (making_sympy1.Multiplication
        (making_sympy1.Multiplication
           (making_sympy1.Constant (making_sympy1.Num (PyInt 3)))
           (making_sympy1.Power
              (making_sympy1.Addition (making_sympy1.Var "x")
                                      (making_sympy1.Constant (making_sympy1.Num (PyInt 1))))
              (making_sympy1.Constant (making_sympy1.Num (PyInt 2)))))
        (making_sympy1.Addition
           (making_sympy1.Constant (making_sympy1.Num (PyInt 1)))
           (making_sympy1.Constant (making_sympy1.Num (PyInt 0))))) /\
  making_sympy2.derivative
    (making_sympy2.Power
       (making_sympy2.Sin (making_sympy2.Var "x"))
       (making_sympy2.Constant (making_sympy2.Num (PyInt 3)))) =
  Ok (making_sympy2.Multiplication
        (making_sympy2.Multiplication
           (making_sympy2.Constant (making_sympy2.Num (PyInt 3)))
           (making_sympy2.Power
              (making_sympy2.Sin (making_sympy2.Var "x"))
              (making_sympy2.Constant (making_sympy2.Num (PyInt 2)))))
        (making_sympy2.Multiplication
           (making_sympy2.Cos (making_sympy2.Var "x"))
           (making_sympy2.Constant (making_sympy2.Num (PyInt 1))))).
Proof.
  repeat match goal with |- _ /\ _ => split end.
  - intros b n; reflexivity.
  - intros b n; reflexivity.
  - intros b n Hb; destruct (derivative_v1_derivable b Hb) as [db Db].
    exists db; split; [exact Db|]. simpl; rewrite Db; reflexivity.
  - intros b n Hb; destruct (derivative_v2_not_symbolic b Hb) as [db Db].
    exists db; split; [exact Db|]. simpl; rewrite Db; reflexivity.
  - intros z; reflexivity.
  - intros z; reflexivity.
  - intros f; reflexivity.
  - vm_compute; reflexivity.
  - reflexivity.
  - reflexivity.
Qed.

(** The base [x / (x + 1)] with the exponent [-2] in the base program. *)
Lemma derivative_Power_Constant_witness :
  exists db,
    making_sympy1.derivative
      (making_sympy1.Division
         (making_sympy1.Var "x")
         (making_sympy1.Addition (making_sympy1.Var "x")
                                 (making_sympy1.Constant (making_sympy1.Num (PyInt 1)))))
    = Ok db /\
    making_sympy1.derivative
      (making_sympy1.Power
         (making_sympy1.Division
            (making_sympy1.Var "x")
            (making_sympy1.Addition (making_sympy1.Var "x")
                                    (making_sympy1.Constant (making_sympy1.Num (PyInt 1)))))
         (making_sympy1.Constant (making_sympy1.Num (PyInt (-2))))) =
    Ok (making_sympy1.Multiplication
          (making_sympy1.Multiplication
             (making_sympy1.Constant (making_sympy1.Num (PyInt (-2))))
             (making_sympy1.Power
                (making_sympy1.Division
                   (making_sympy1.Var "x")
                   (making_sympy1.Addition (making_sympy1.Var "x")
                                           (making_sympy1.Constant (making_sympy1.Num (PyInt 1)))))
                (making_sympy1.Constant (making_sympy1.Num (PyInt (-3))))))
          db).
Proof.
  exact (proj1 (proj2 (proj2 derivative_Power_Constant))
               (making_sympy1.Division
                  (making_sympy1.Var "x")
                  (making_sympy1.Addition (making_sympy1.Var "x")
                                          (making_sympy1.Constant (making_sympy1.Num (PyInt 1)))))
               (PyInt (-2)) eq_refl).
Defined.

(** C6.  Quotient rule: the derivative of [Division(l, r)] is
    [Division(Subtraction(Multiplication(l', r), Multiplication(l, r')), Multiplication(r, r))]
    with [l'], [r'] the derivatives of [l], [r].  The denominator is not
    inspected: [derivative(Division(x, Constant(0)))] returns a tree. *)
Theorem derivative_Division :
  (forall l r,
      making_sympy1.derivative (making_sympy1.Division l r) =
      dl <- making_sympy1.derivative l ;;
      dr <- making_sympy1.derivative r ;;
      Ok (making_sympy1.Division
            (making_sympy1.Subtraction
               (making_sympy1.Multiplication dl r)
               (making_sympy1.Multiplication l dr))
            (making_sympy1.Multiplication r r))) /\
  (forall l r,
      making_sympy2.derivative (making_sympy2.Division l r) =
      dl <- making_sympy2.derivative l ;;
      dr <- making_sympy2.derivative r ;;
      Ok (making_sympy2.Division
            (making_sympy2.Subtraction
               (making_sympy2.Multiplication dl r)
               (making_sympy2.Multiplication l dr))
            (making_sympy2.Multiplication r r))) /\
  making_sympy1.derivative
    (making_sympy1.Division (making_sympy1.Var "x")
                            (making_sympy1.Constant (making_sympy1.Num (PyInt 0)))) =
  Ok (making_sympy1.Division
        (making_sympy1.Subtraction
           (making_sympy1.Multiplication
              (making_sympy1.Constant (making_sympy1.Num (PyInt 1)))
              (making_sympy1.Constant (making_sympy1.Num (PyInt 0))))
           (making_sympy1.Multiplication
              (making_sympy1.Var "x")
              (making_sympy1.Constant (making_sympy1.Num (PyInt 0)))))
        (making_sympy1.Multiplication
           (making_sympy1.Constant (making_sympy1.Num (PyInt 0)))
           (making_sympy1.Constant (making_sympy1.Num (PyInt 0))))) /\
  making_sympy2.derivative
    (making_sympy2.Division (making_sympy2.Var "x")
                            (making_sympy2.Constant (making_sympy2.Num (PyInt 0)))) =
  Ok (making_sympy2.Division
        (making_sympy2.Subtraction
           (making_sympy2.Multiplication
              (making_sympy2.Constant (making_sympy2.Num (PyInt 1)))
              (making_sympy2.Constant (making_sympy2.Num (PyInt 0))))
           (making_sympy2.Multiplication
              (making_sympy2.Var "x")
              (making_sympy2.Constant (making_sympy2.Num (PyInt 0)))))
        (making_sympy2.Multiplication
           (making_sympy2.Constant (making_sympy2.Num (PyInt 0)))
           (making_sympy2.Constant (making_sympy2.Num (PyInt 0))))).
Proof.
  split; [|split; [|split]].
  - intros l r; reflexivity.
  - intros l r; reflexivity.
  - reflexivity.
  - reflexivity.
Qed.

(** C7.  Product rule: the derivative of [Multiplication(a, b)] is
    [Addition(Multiplication(a', b), Multiplication(a, b'))] with [a'],
    [b'] the derivatives of [a], [b].  Both programs return this tree
    whenever they can differentiate [a] and [b], and pass on the
    exception of the first operand that fails.  Nothing is simplified:
    the derivative of [0 * x] keeps both zero factors. *)
Theorem derivative_Multiplication :
  (forall a b,
      making_sympy1.derivative (making_sympy1.Multiplication a b) =
      da <- making_sympy1.derivative a ;;
      db <- making_sympy1.derivative b ;;
      Ok (making_sympy1.Addition
            (making_sympy1.Multiplication da b)
            (making_sympy1.Multiplication a db))) /\
  (forall a b,
      making_sympy2.derivative (making_sympy2.Multiplication a b) =
      da <- making_sympy2.derivative a ;;
      db <- making_sympy2.derivative b ;;
      Ok (making_sympy2.Addition
            (making_sympy2.Multiplication da b)
            (making_sympy2.Multiplication a db))) /\
  (forall a b,
      Tree1.derivable a = true ->
      Tree1.derivable b = true ->
      exists da db,
        making_sympy1.derivative a = Ok da /\
        making_sympy1.derivative b = Ok db /\
        making_sympy1.derivative (making_sympy1.Multiplication a b) =
        Ok (making_sympy1.Addition
              (making_sympy1.Multiplication da b)
              (making_sympy1.Multiplication a db))) /\
  (forall a b,
      making_sympy2.symbolic_power a = false ->
      making_sympy2.symbolic_power b = false ->
      exists da db,
        making_sympy2.derivative a = Ok da /\
        making_sympy2.derivative b = Ok db /\
        making_sympy2.derivative (making_sympy2.Multiplication a b) =
        Ok (making_sympy2.Addition
              (making_sympy2.Multiplication da b)
              (making_sympy2.Multiplication a db))) /\
  making_sympy1.derivative
    (making_sympy1.Multiplication
       (making_sympy1.Constant (making_sympy1.Num (PyInt 0)))
       (making_sympy1.Var "x")) =
  Ok (making_sympy1.Addition
        (making_sympy1.Multiplication
           (making_sympy1.Constant (making_sympy1.Num (PyInt 0)))
           (making_sympy1.Var "x"))
        (making_sympy1.Multiplication
           (making_sympy1.Constant (making_sympy1.Num (PyInt 0)))
           (making_sympy1.Constant (making_sympy1.Num (PyInt 1))))) /\
  making_sympy2.derivative
    (making_sympy2.Multiplication
       (making_sympy2.Constant (making_sympy2.Num (PyInt 0)))
       (making_sympy2.Var "x")) =
  Ok (making_sympy2.Addition
        (making_sympy2.Multiplication
           (making_sympy2.Constant (making_sympy2.Num (PyInt 0)))
           (making_sympy2.Var "x"))
        (making_sympy2.Multiplication
           (making_sympy2.Constant (making_sympy2.Num (PyInt 0)))
           (making_sympy2.Constant (making_sympy2.Num (PyInt 1))))).
Proof.
  repeat match goal with |- _ /\ _ => split end.
  - intros a b; reflexivity.
  - intros a b; reflexivity.
  - intros a b Ha Hb.
    destruct (derivative_v1_derivable a Ha) as [da Da].
    destruct (derivative_v1_derivable b Hb) as [db Db].
    exists da, db; split; [exact Da|]; split; [exact Db|].
    simpl; rewrite Da, Db; reflexivity.
  - intros a b Ha Hb.
    destruct (derivative_v2_not_symbolic a Ha) as [da Da].
    destruct (derivative_v2_not_symbolic b Hb) as [db Db].
    exists da, db; split; [exact Da|]; split; [exact Db|].
    simpl; rewrite Da, Db; reflexivity.
  - reflexivity.
  - reflexivity.
Qed.

(** [(x * x) * (x + 2)] in the base program. *)
Lemma derivative_Multiplication_witness :
  exists da db,
    making_sympy1.derivative
      (making_sympy1.Multiplication (making_sympy1.Var "x") (making_sympy1.Var "x"))
    = Ok da /\
    making_sympy1.derivative
      (making_sympy1.Addition (making_sympy1.Var "x")
                              (making_sympy1.Constant (making_sympy1.Num (PyInt 2))))
    = Ok db /\
    making_sympy1.derivative
      (making_sympy1.Multiplication
         (making_sympy1.Multiplication (making_sympy1.Var "x") (making_sympy1.Var "x"))
         (making_sympy1.Addition (making_sympy1.Var "x")
                                 (making_sympy1.Constant (making_sympy1.Num (PyInt 2)))))
    = Ok (making_sympy1.Addition
            (making_sympy1.Multiplication
               da
               (making_sympy1.Addition (making_sympy1.Var "x")
                                       (making_sympy1.Constant (making_sympy1.Num (PyInt 2)))))
            (making_sympy1.Multiplication
               (making_sympy1.Multiplication (making_sympy1.Var "x") (making_sympy1.Var "x"))
               db)).
Proof.
  exact (proj1 (proj2 (proj2 derivative_Multiplication))
               (making_sympy1.Multiplication (making_sympy1.Var "x") (making_sympy1.Var "x"))
               (making_sympy1.Addition (making_sympy1.Var "x")
                                       (making_sympy1.Constant (making_sympy1.Num (PyInt 2))))
               eq_refl eq_refl).
Defined.

(** C8.  Chain rule in the extended program: the derivative of [Sin(u)]
    is [Multiplication(Cos(u), u')] and the derivative of [Cos(u)] is
    [Multiplication(Multiplication(Constant(-1), Sin(u)), u')], with
    [u'] the derivative of [u].  Both trees are returned whenever [u]
    can be differentiated, and the exception of [u] is passed on
    otherwise. *)
Theorem derivative_Sin_Cos :
  (forall u,
      making_sympy2.derivative (making_sympy2.Sin u) =
      du <- making_sympy2.derivative u ;;
      Ok (making_sympy2.Multiplication (making_sympy2.Cos u) du)) /\
  (forall u,
      making_sympy2.derivative (making_sympy2.Cos u) =
      du <- making_sympy2.derivative u ;;
      Ok (making_sympy2.Multiplication
            (making_sympy2.Multiplication
               (making_sympy2.Constant (making_sympy2.Num (PyInt (-1))))
               (making_sympy2.Sin u))
            du)) /\
  (forall u,
      making_sympy2.symbolic_power u = false ->
      exists du,
        making_sympy2.derivative u = Ok du /\
        making_sympy2.derivative (making_sympy2.Sin u) =
        Ok (making_sympy2.Multiplication (making_sympy2.Cos u) du) /\
        making_sympy2.derivative (making_sympy2.Cos u) =
        Ok (making_sympy2.Multiplication
              (making_sympy2.Multiplication
                 (making_sympy2.Constant (making_sympy2.Num (PyInt (-1))))
                 (making_sympy2.Sin u))
              du)) /\
  (forall name,
      making_sympy2.derivative (making_sympy2.Sin (making_sympy2.Var name)) =
      Ok (making_sympy2.Multiplication
            (making_sympy2.Cos (making_sympy2.Var name))
            (making_sympy2.Constant (making_sympy2.Num (PyInt 1))))) /\
  (forall name,
      making_sympy2.derivative (making_sympy2.Cos (making_sympy2.Var name)) =
      Ok (making_sympy2.Multiplication
            (making_sympy2.Multiplication
               (making_sympy2.Constant (making_sympy2.Num (PyInt (-1))))
               (making_sympy2.Sin (making_sympy2.Var name)))
            (making_sympy2.Constant (making_sympy2.Num (PyInt 1))))) /\
  making_sympy2.derivative
    (making_sympy2.Sin
       (making_sympy2.Cos
          (making_sympy2.Power (making_sympy2.Var "x")
                               (making_sympy2.Constant (making_sympy2.Num (PyInt 2)))))) =
  Ok (making_sympy2.Multiplication
        (making_sympy2.Cos
           (making_sympy2.Cos
              (making_sympy2.Power (making_sympy2.Var "x")
                                   (making_sympy2.Constant (making_sympy2.Num (PyInt 2))))))
        (making_sympy2.Multiplication
           (making_sympy2.Multiplication
              (making_sympy2.Constant (making_sympy2.Num (PyInt (-1))))
              (making_sympy2.Sin
                 (making_sympy2.Power (making_sympy2.Var "x")
                                      (making_sympy2.Constant (making_sympy2.Num (PyInt 2))))))
           (making_sympy2.Multiplication
              (making_sympy2.Multiplication
                 (making_sympy2.Constant (making_sympy2.Num (PyInt 2)))
                 (making_sympy2.Power (making_sympy2.Var "x")
                                      (making_sympy2.Constant (making_sympy2.Num (PyInt 1)))))
              (making_sympy2.Constant (making_sympy2.Num (PyInt 1)))))).
Proof.
  repeat match goal with |- _ /\ _ => split end.
  - intros u; reflexivity.
  - intros u; reflexivity.
  - intros u Hu; destruct (derivative_v2_not_symbolic u Hu) as [du Du].
    exists du; split; [exact Du|]; split; simpl; rewrite Du; reflexivity.
  - intros name; reflexivity.
  - intros name; reflexivity.
  - reflexivity.
Qed.

(** [sin(x / 3)] and [cos(x / 3)]. *)
Lemma derivative_Sin_Cos_witness :
  exists du,
    making_sympy2.derivative
      (making_sympy2.Division (making_sympy2.Var "x")
                              (making_sympy2.Constant (making_sympy2.Num (PyInt 3))))
    = Ok du /\
    making_sympy2.derivative
      (making_sympy2.Sin
         (making_sympy2.Division (making_sympy2.Var "x")
                                 (making_sympy2.Constant (making_sympy2.Num (PyInt 3)))))
    = Ok (making_sympy2.Multiplication
            (making_sympy2.Cos
               (making_sympy2.Division (making_sympy2.Var "x")
                                       (making_sympy2.Constant (making_sympy2.Num (PyInt 3)))))
            du) /\
    making_sympy2.derivative
      (making_sympy2.Cos
         (making_sympy2.Division (making_sympy2.Var "x")
                                 (making_sympy2.Constant (making_sympy2.Num (PyInt 3)))))
    = Ok (making_sympy2.Multiplication
            (making_sympy2.Multiplication
               (making_sympy2.Constant (making_sympy2.Num (PyInt (-1))))
               (making_sympy2.Sin
                  (making_sympy2.Division (making_sympy2.Var "x")
                                          (making_sympy2.Constant (making_sympy2.Num (PyInt 3))))))
            du).
Proof.
  exact (proj1 (proj2 (proj2 derivative_Sin_Cos))
               (making_sympy2.Division (making_sympy2.Var "x")
                                       (making_sympy2.Constant (making_sympy2.Num (PyInt 3))))
               eq_refl).
Defined.

(** ** Rendering *)












(** ** Reflected combinators *)

(** C10.  With a numeric literal [k] on the left, [k + e] and [k * e]
    build [Addition(e, Constant(k))] and [Multiplication(e, Constant(k))].
    [k / e], and in the extended program [k - e], keep the written order
    but wrap the literal twice: the left child is a [Constant] whose
    value is the node [Constant(k)], which is not the tree
    [Constant(k)].  In the base program [k - e] builds nothing. *)
Theorem reflected_combinators :
  (forall e k,
      making_sympy1.rbinop OpAdd k e =
      Ok (making_sympy1.Addition e (making_sympy1.Constant (making_sympy1.Num k)))) /\
  (forall e k,
      making_sympy1.rbinop OpMul k e =
      Ok (making_sympy1.Multiplication e (making_sympy1.Constant (making_sympy1.Num k)))) /\
  (forall e k,
      making_sympy1.rbinop OpDiv k e =
      Ok (making_sympy1.Division
            (making_sympy1.Constant
               (making_sympy1.Obj (making_sympy1.Constant (making_sympy1.Num k))))
            e)) /\
  (forall e k,
      making_sympy1.rbinop OpDiv k e <>
      Ok (making_sympy1.Division (making_sympy1.Constant (making_sympy1.Num k)) e)) /\
  (forall e k, making_sympy1.rbinop OpSub k e = Raise TypeError) /\
  (forall e k,
      making_sympy2.rbinop OpAdd k e =
      Ok (making_sympy2.Addition e (making_sympy2.Constant (making_sympy2.Num k)))) /\
  (forall e k,
      making_sympy2.rbinop OpMul k e =
      Ok (making_sympy2.Multiplication e (making_sympy2.Constant (making_sympy2.Num k)))) /\
  (forall e k,
      making_sympy2.rbinop OpDiv k e =
      Ok (making_sympy2.Division
            (making_sympy2.Constant
               (making_sympy2.Obj (making_sympy2.Constant (making_sympy2.Num k))))
            e)) /\
  (forall e k,
      making_sympy2.rbinop OpDiv k e <>
      Ok (making_sympy2.Division (making_sympy2.Constant (making_sympy2.Num k)) e)) /\
  (forall e k,
      making_sympy2.rbinop OpSub k e =
      Ok (making_sympy2.Subtraction
            (making_sympy2.Constant
               (making_sympy2.Obj (making_sympy2.Constant (making_sympy2.Num k))))
            e)) /\
  (forall e k,
      making_sympy2.rbinop OpSub k e <>
      Ok (making_sympy2.Subtraction (making_sympy2.Constant (making_sympy2.Num k)) e)) /\
  making_sympy2.rbinop OpDiv (PyInt 1) (making_sympy2.Var "x") =
  Ok (making_sympy2.Division
        (making_sympy2.Constant
           (making_sympy2.Obj (making_sympy2.Constant (making_sympy2.Num (PyInt 1)))))
        (making_sympy2.Var "x")).
Proof.
  repeat match goal with |- _ /\ _ => split end;
    try (intros e k; reflexivity);
    try (intros e k; simpl; intros H; discriminate H).
  reflexivity.
Qed.

(** * Further properties of the programs *)

(** ** Which trees can be differentiated, and how often *)

Lemma derivative_v2_Ok_symbolic (e d : making_sympy2.Expression) :
  making_sympy2.derivative e = Ok d -> making_sympy2.symbolic_power e = false.
Proof.
  intros H.
  destruct (derivative_v2_outcome e) as [[_ D]|[S _]]; [|exact S].
  rewrite D in H; discriminate H.
Qed.

Lemma binop_v2_Add_inv (l r d : making_sympy2.Expression) :
  making_sympy2.binop OpAdd l (making_sympy2.Obj r) = Ok d ->
  d = making_sympy2.Addition l r.
Proof. simpl; intros H; injection H as <-; reflexivity. Qed.

Lemma binop_v2_Sub_inv (l r d : making_sympy2.Expression) :
  making_sympy2.binop OpSub l (making_sympy2.Obj r) = Ok d ->
  d = making_sympy2.Subtraction l r.
Proof. simpl; intros H; injection H as <-; reflexivity. Qed.

(** Takes [derivative e = Ok d] apart into the results of the calls it
    made. *)
Ltac unbind H :=
  repeat match type of H with
         | bind _ _ = Ok _ =>
             let x := fresh "d" in
             let Hx := fresh "D" in
             apply bind_Ok_inv in H; destruct H as (x & Hx & H)
         end.

(** A derivative has no [Power] with a symbolic exponent where
    [derivative] would meet it. *)
Lemma derivative_v2_no_symbolic (e : making_sympy2.Expression) :
  forall d, making_sympy2.derivative e = Ok d ->
            making_sympy2.symbolic_power d = false.
Proof.
  induction e as [name|v|l IHl r IHr|l IHl r IHr|l IHl r IHr|l IHl r IHr
                 |b IHb ex _|u IHu|u IHu]; intros d H; simpl in H.
  - injection H as <-; reflexivity.
  - injection H as <-; reflexivity.
  - unbind H. apply binop_v2_Add_inv in H; subst d; simpl.
    rewrite (IHl _ D), (IHr _ D0); reflexivity.
  - unbind H. injection H as <-; simpl.
    rewrite (IHl _ D), (IHr _ D0).
    rewrite (derivative_v2_Ok_symbolic _ _ D), (derivative_v2_Ok_symbolic _ _ D0).
    reflexivity.
  - unbind H. injection H as <-; simpl.
    rewrite (IHl _ D), (IHr _ D0).
    rewrite (derivative_v2_Ok_symbolic _ _ D), (derivative_v2_Ok_symbolic _ _ D0).
    reflexivity.
  - unbind H. apply binop_v2_Sub_inv in H; subst d; simpl.
    rewrite (IHl _ D), (IHr _ D0); reflexivity.
  - destruct ex; try discriminate H.
    unbind H. injection H as <-; simpl.
    rewrite (IHb _ D0), (derivative_v2_Ok_symbolic _ _ D0); reflexivity.
  - unbind H. injection H as <-; simpl.
    rewrite (IHu _ D), (derivative_v2_Ok_symbolic _ _ D); reflexivity.
  - unbind H. injection H as <-; simpl.
    rewrite (IHu _ D), (derivative_v2_Ok_symbolic _ _ D); reflexivity.
Qed.

(** X1.  In the extended program, an expression that can be
    differentiated once can be differentiated any number of times: the
    tree returned by [derivative] is again accepted by [derivative]. *)
Theorem higher_derivatives_exist (e : making_sympy2.Expression) (n : nat) :
  (exists d, making_sympy2.derivative e = Ok d) ->
  exists dn, Tree2.derivative_n n e = Ok dn.
Proof.
  revert e; induction n as [|n IH]; intros e [d H]; simpl.
  - exists e; reflexivity.
  - rewrite H; simpl. apply IH.
    destruct (derivative_v2_outcome d) as [[S _]|[_ T]]; [|exact T].
    rewrite (derivative_v2_no_symbolic _ _ H) in S; discriminate S.
Qed.

(** The third derivative of [sin(x) / x ** 2]. *)
Lemma higher_derivatives_exist_witness :
  exists d3,
    Tree2.derivative_n 3
      (making_sympy2.Division
         (making_sympy2.Sin (making_sympy2.Var "x"))
         (making_sympy2.Power (making_sympy2.Var "x")
                              (making_sympy2.Constant (making_sympy2.Num (PyInt 2)))))
    = Ok d3.
Proof.
  apply higher_derivatives_exist.
  eexists; reflexivity.
Defined.

(** In the base program a derivative, too, has no symbolic exponent in
    the way of [derivative]. *)
Lemma derivable_no_symbolic (e : making_sympy1.Expression) :
  Tree1.derivable e = true -> Tree1.symbolic_power e = false.
Proof.
  induction e as [name|v|l IHl r IHr|l IHl r IHr|l IHl r IHr|l IHl r IHr
                 |b IHb ex _]; simpl; intros H; try reflexivity;
    try discriminate H.
  1-3: apply andb_true_iff in H; destruct H as [Hl Hr];
       rewrite (IHl Hl), (IHr Hr); reflexivity.
  destruct ex as [?|[n|o]| | | | | ]; try discriminate H; simpl.
  exact (IHb H).
Qed.

(** X2.  In the base program [derivative] returns a tree exactly on the
    expressions without a [Subtraction] node in which every exponent is
    a [Constant] holding a number. *)
Theorem derivative_v1_succeeds_iff (e : making_sympy1.Expression) :
  (exists d, making_sympy1.derivative e = Ok d) <-> Tree1.derivable e = true.
Proof.
  induction e as [name|v|l IHl r IHr|l IHl r IHr|l IHl r IHr|l IHl r IHr
                 |b IHb ex _]; simpl.
  1-2: split; [reflexivity | intros _; eexists; reflexivity].
  1-3: rewrite andb_true_iff, <- IHl, <- IHr; split;
       [ intros [d H]; unbind H; split; eexists; eassumption
       | intros [[dl Hl] [dr Hr]]; rewrite Hl, Hr; simpl; eexists; reflexivity ].
  - split; [|intros H; discriminate H].
    intros [d H]; unbind H; simpl in H; discriminate H.
  - destruct ex as [?|[n|o]| | | | | ]; simpl;
      try (split; [intros [d H]; discriminate H | intros H; discriminate H]).
    rewrite <- IHb; split.
    + intros [d H]; unbind H; eexists; eassumption.
    + intros [db Hb]; rewrite Hb; simpl; eexists; reflexivity.
Qed.

Lemma derivative_v1_Ok_symbolic (e : making_sympy1.Expression) :
  forall d, making_sympy1.derivative e = Ok d -> Tree1.symbolic_power e = false.
Proof.
  induction e as [name|v|l IHl r IHr|l IHl r IHr|l IHl r IHr|l IHl r IHr
                 |b IHb ex _]; intros d H; simpl in H; try reflexivity.
  1-4: unbind H; simpl; rewrite (IHl _ D), (IHr _ D0); reflexivity.
  destruct ex; try discriminate H.
  unbind H; simpl; exact (IHb _ D0).
Qed.

Lemma derivative_v1_no_symbolic (e : making_sympy1.Expression) :
  forall d, making_sympy1.derivative e = Ok d -> Tree1.symbolic_power d = false.
Proof.
  induction e as [name|v|l IHl r IHr|l IHl r IHr|l IHl r IHr|l IHl r IHr
                 |b IHb ex _]; intros d H; simpl in H.
  - injection H as <-; reflexivity.
  - injection H as <-; reflexivity.
  - unbind H. simpl in H; injection H as <-; simpl.
    rewrite (IHl _ D), (IHr _ D0); reflexivity.
  - unbind H. injection H as <-; simpl.
    rewrite (IHl _ D), (IHr _ D0).
    rewrite (derivative_v1_Ok_symbolic _ _ D), (derivative_v1_Ok_symbolic _ _ D0).
    reflexivity.
  - unbind H. injection H as <-; simpl.
    rewrite (IHl _ D), (IHr _ D0).
    rewrite (derivative_v1_Ok_symbolic _ _ D), (derivative_v1_Ok_symbolic _ _ D0).
    reflexivity.
  - unbind H. simpl in H; discriminate H.
  - destruct ex; try discriminate H.
    unbind H. injection H as <-; simpl.
    rewrite (IHb _ D0), (derivative_v1_Ok_symbolic _ _ D0); reflexivity.
Qed.

(** Without a symbolic exponent in the way, the only exception of the
    base program's [derivative] is [TypeError]. *)
Lemma derivative_v1_TypeError (e : making_sympy1.Expression) :
  Tree1.symbolic_power e = false ->
  forall err, making_sympy1.derivative e = Raise err -> err = TypeError.
Proof.
  induction e as [name|v|l IHl r IHr|l IHl r IHr|l IHl r IHr|l IHl r IHr
                 |b IHb ex _]; simpl; intros S err H; try discriminate H.
  1-4: apply orb_false_iff in S; destruct S as [Sl Sr];
       apply bind_Raise_inv in H; destruct H as [H|(dl & _ & H)];
       [ exact (IHl Sl _ H) | ];
       apply bind_Raise_inv in H; destruct H as [H|(dr & _ & H)];
       [ exact (IHr Sr _ H) | ];
       simpl in H; try discriminate H; injection H as <-; reflexivity.
  destruct ex; simpl in S; try discriminate S.
  apply bind_Raise_inv in H; destruct H as [H|(w & _ & H)].
  - destruct value; simpl in H; [discriminate H | injection H as <-; reflexivity].
  - apply bind_Raise_inv in H; destruct H as [H|(db & _ & H)]; [|discriminate H].
    exact (IHb S _ H).
Qed.

Lemma derivative_v1_Subtraction_not_Ok (a b t : making_sympy1.Expression) :
  making_sympy1.derivative (making_sympy1.Subtraction a b) <> Ok t.
Proof.
  simpl; intros H.
  apply bind_Ok_inv in H; destruct H as (da & _ & H).
  apply bind_Ok_inv in H; destruct H as (db & _ & H).
  discriminate H.
Qed.

Lemma derivative_v1_Division_Ok_left (n m t : making_sympy1.Expression) :
  making_sympy1.derivative (making_sympy1.Division n m) = Ok t ->
  exists dn, making_sympy1.derivative n = Ok dn.
Proof.
  simpl; intros H.
  apply bind_Ok_inv in H; destruct H as (dn & Hn & _).
  exists dn; exact Hn.
Qed.

(** X3.  In the base program the derivative of a quotient cannot be
    differentiated again: the quotient rule puts a [Subtraction] node in
    the numerator, and [derivative] ends in [TypeError] on it. *)
Theorem second_derivative_of_Division_v1 (l r d : making_sympy1.Expression) :
  making_sympy1.derivative (making_sympy1.Division l r) = Ok d ->
  making_sympy1.derivative d = Raise TypeError.
Proof.
  intros H.
  pose proof (derivative_v1_no_symbolic _ _ H) as S.
  simpl in H; unbind H; injection H as <-.
  destruct (making_sympy1.derivative
              (making_sympy1.Division
                 (making_sympy1.Subtraction
                    (making_sympy1.Multiplication d0 r)
                    (making_sympy1.Multiplication l d1))
                 (making_sympy1.Multiplication r r))) as [t|err] eqn:E.
  - exfalso.
    destruct (derivative_v1_Division_Ok_left _ _ _ E) as [dn Hn].
    exact (derivative_v1_Subtraction_not_Ok _ _ _ Hn).
  - rewrite (derivative_v1_TypeError _ S _ E); reflexivity.
Qed.

(** [x / (x * x)] *)
Lemma second_derivative_of_Division_v1_witness :
  exists d,
    making_sympy1.derivative
      (making_sympy1.Division
         (making_sympy1.Var "x")
         (making_sympy1.Multiplication (making_sympy1.Var "x") (making_sympy1.Var "x")))
    = Ok d /\
    making_sympy1.derivative d = Raise TypeError.
Proof.
  eexists; split; [reflexivity|].
  apply (second_derivative_of_Division_v1
           (making_sympy1.Var "x")
           (making_sympy1.Multiplication (making_sympy1.Var "x") (making_sympy1.Var "x"))).
  reflexivity.
Defined.

(** ** What [derivative] keeps *)

Lemma int_constants_finite (e : making_sympy2.Expression) :
  Tree2.int_constants e = true -> making_sympy2.constants_finite e = true.
Proof.
  induction e as [name|v|l IHl r IHr|l IHl r IHr|l IHl r IHr|l IHl r IHr
                 |b IHb ex IHex|u IHu|u IHu]; simpl; intros H; auto.
  - destruct v as [[z|f]|o]; try discriminate H; reflexivity.
  - apply andb_true_iff in H; destruct H as [Hl Hr];
      rewrite (IHl Hl), (IHr Hr); reflexivity.
  - apply andb_true_iff in H; destruct H as [Hl Hr];
      rewrite (IHl Hl), (IHr Hr); reflexivity.
  - apply andb_true_iff in H; destruct H as [Hl Hr];
      rewrite (IHl Hl), (IHr Hr); reflexivity.
  - apply andb_true_iff in H; destruct H as [Hl Hr];
      rewrite (IHl Hl), (IHr Hr); reflexivity.
  - apply andb_true_iff in H; destruct H as [Hl Hr];
      rewrite (IHb Hl), (IHex Hr); reflexivity.
Qed.

Lemma derivative_int_constants (e : making_sympy2.Expression) :
  forall d,
    Tree2.int_constants e = true ->
    making_sympy2.derivative e = Ok d ->
    Tree2.int_constants d = true.
Proof.
  induction e as [name|v|l IHl r IHr|l IHl r IHr|l IHl r IHr|l IHl r IHr
                 |b IHb ex _|u IHu|u IHu]; intros d I H; simpl in H, I.
  - injection H as <-; reflexivity.
  - injection H as <-; reflexivity.
  - apply andb_true_iff in I; destruct I as [Il Ir].
    unbind H. apply binop_v2_Add_inv in H; subst d; simpl.
    rewrite (IHl _ Il D), (IHr _ Ir D0); reflexivity.
  - apply andb_true_iff in I; destruct I as [Il Ir].
    unbind H. injection H as <-; simpl.
    rewrite (IHl _ Il D), (IHr _ Ir D0), Il, Ir; reflexivity.
  - apply andb_true_iff in I; destruct I as [Il Ir].
    unbind H. injection H as <-; simpl.
    rewrite (IHl _ Il D), (IHr _ Ir D0), Il, Ir; reflexivity.
  - apply andb_true_iff in I; destruct I as [Il Ir].
    unbind H. apply binop_v2_Sub_inv in H; subst d; simpl.
    rewrite (IHl _ Il D), (IHr _ Ir D0); reflexivity.
  - apply andb_true_iff in I; destruct I as [Ib Iex].
    destruct ex as [?|[[z|f]|o]| | | | | | | ]; try discriminate H;
      try discriminate Iex.
    unbind H. simpl in D; injection D as <-. injection H as <-; simpl.
    rewrite (IHb _ Ib D0), Ib; reflexivity.
  - unbind H. injection H as <-; simpl.
    rewrite (IHu _ I D), I; reflexivity.
  - unbind H. injection H as <-; simpl.
    rewrite (IHu _ I D), I; reflexivity.
Qed.

(** X4.  In the extended program the derivative of an expression whose
    constants are all [int]s has only [int] constants: [derivative]
    brings in no [float] and no nested object, so every constant of the
    result is a finite number. *)
Theorem derivative_keeps_int_constants (e d : making_sympy2.Expression) :
  Tree2.int_constants e = true ->
  making_sympy2.derivative e = Ok d ->
  Tree2.int_constants d = true /\ making_sympy2.constants_finite d = true.
Proof.
  intros I H.
  pose proof (derivative_int_constants e d I H) as Id.
  split; [exact Id | exact (int_constants_finite d Id)].
Qed.

(** [cos(3 * x) ** 2] *)
Lemma derivative_keeps_int_constants_witness :
  exists d,
    making_sympy2.derivative
      (making_sympy2.Power
         (making_sympy2.Cos
            (making_sympy2.Multiplication
               (making_sympy2.Constant (making_sympy2.Num (PyInt 3)))
               (making_sympy2.Var "x")))
         (making_sympy2.Constant (making_sympy2.Num (PyInt 2)))) = Ok d /\
    Tree2.int_constants d = true /\ making_sympy2.constants_finite d = true.
Proof.
  eexists; split; [reflexivity|].
  apply (derivative_keeps_int_constants
           (making_sympy2.Power
              (making_sympy2.Cos
                 (making_sympy2.Multiplication
                    (making_sympy2.Constant (making_sympy2.Num (PyInt 3)))
                    (making_sympy2.Var "x")))
              (making_sympy2.Constant (making_sympy2.Num (PyInt 2)))));
    reflexivity.
Defined.

(** X5.  [derivative] does not look at the names of variables: every
    [Variable] is the variable of differentiation, so renaming the
    variables of an expression and differentiating gives the renamed
    derivative (and the same exception, if any). *)
Theorem derivative_rename (f : string -> string) (e : making_sympy2.Expression) :
  making_sympy2.derivative (Tree2.rename f e) =
  d <- making_sympy2.derivative e ;; Ok (Tree2.rename f d).
Proof.
  induction e as [name|v|l IHl r IHr|l IHl r IHr|l IHl r IHr|l IHl r IHr
                 |b IHb ex _|u IHu|u IHu]; simpl; try reflexivity.
  1-4: rewrite IHl, IHr;
       destruct (making_sympy2.derivative l) as [dl|err]; simpl; [|reflexivity];
       destruct (making_sympy2.derivative r) as [dr|err]; reflexivity.
  - destruct ex as [?|[n|o]| | | | | | | ]; simpl; try reflexivity;
      rewrite IHb;
      destruct (making_sympy2.derivative b) as [db|err]; reflexivity.
  - rewrite IHu; destruct (making_sympy2.derivative u) as [du|err]; reflexivity.
  - rewrite IHu; destruct (making_sympy2.derivative u) as [du|err]; reflexivity.
Qed.

Lemma size_positive (e : making_sympy2.Expression) : (1 <= Tree2.size e)%nat.
Proof. destruct e; simpl; lia. Qed.

(** X6.  The extended program's [derivative] never returns a tree
    smaller than its argument, and the result has at most three times
    the square of the argument's number of nodes. *)
Theorem derivative_size (e d : making_sympy2.Expression) :
  making_sympy2.derivative e = Ok d ->
  (Tree2.size e <= Tree2.size d <= 3 * Tree2.size e * Tree2.size e)%nat.
Proof.
  revert d.
  induction e as [name|v|l IHl r IHr|l IHl r IHr|l IHl r IHr|l IHl r IHr
                 |b IHb ex _|u IHu|u IHu]; intros d H; simpl in H.
  - injection H as <-; simpl; lia.
  - injection H as <-; simpl; lia.
  - unbind H. apply binop_v2_Add_inv in H; subst d; cbn [Tree2.size].
    specialize (IHl _ D); specialize (IHr _ D0).
    pose proof (size_positive l); pose proof (size_positive r); nia.
  - unbind H. injection H as <-; cbn [Tree2.size].
    specialize (IHl _ D); specialize (IHr _ D0).
    pose proof (size_positive l); pose proof (size_positive r); nia.
  - unbind H. injection H as <-; cbn [Tree2.size].
    specialize (IHl _ D); specialize (IHr _ D0).
    pose proof (size_positive l); pose proof (size_positive r); nia.
  - unbind H. apply binop_v2_Sub_inv in H; subst d; cbn [Tree2.size].
    specialize (IHl _ D); specialize (IHr _ D0).
    pose proof (size_positive l); pose proof (size_positive r); nia.
  - destruct ex; try discriminate H.
    unbind H. injection H as <-; cbn [Tree2.size].
    specialize (IHb _ D0); pose proof (size_positive b); nia.
  - unbind H. injection H as <-; cbn [Tree2.size].
    specialize (IHu _ D); pose proof (size_positive u); nia.
  - unbind H. injection H as <-; cbn [Tree2.size].
    specialize (IHu _ D); pose proof (size_positive u); nia.
Qed.

(** [(x * x) / sin(x)], 6 nodes. *)
Lemma derivative_size_witness :
  exists d,
    making_sympy2.derivative
      (making_sympy2.Division
         (making_sympy2.Multiplication (making_sympy2.Var "x") (making_sympy2.Var "x"))
         (making_sympy2.Sin (making_sympy2.Var "x"))) = Ok d /\
    (6 <= Tree2.size d <= 3 * 6 * 6)%nat.
Proof.
  eexists; split; [reflexivity|].
  apply (derivative_size
           (making_sympy2.Division
              (making_sympy2.Multiplication (making_sympy2.Var "x") (making_sympy2.Var "x"))
              (making_sympy2.Sin (making_sympy2.Var "x")))).
  reflexivity.
Defined.

(** ** The two programs side by side *)

Scheme Expression1_mut := Induction for making_sympy1.Expression Sort Prop
  with pyobj1_mut := Induction for making_sympy1.pyobj Sort Prop.

Scheme Expression2_mut := Induction for making_sympy2.Expression Sort Prop
  with pyobj2_mut := Induction for making_sympy2.pyobj Sort Prop.

Lemma repr_lift (float_repr : spec_float -> string) (e : making_sympy1.Expression) :
  making_sympy2.__repr__ float_repr (Tree1.lift e) =
  making_sympy1.__repr__ float_repr e.
Proof.
  induction e using Expression1_mut with
    (P0 := fun v =>
             match v with
             | making_sympy1.Num _ => True
             | making_sympy1.Obj o =>
                 making_sympy2.__repr__ float_repr (Tree1.lift o) =
                 making_sympy1.__repr__ float_repr o
             end); simpl; try reflexivity; try exact I; try assumption;
    try (rewrite IHe1, IHe2; reflexivity).
  destruct value; [reflexivity | exact IHe].
Qed.

Lemma derivative_lift (e : making_sympy1.Expression) :
  forall d,
    making_sympy1.derivative e = Ok d ->
    making_sympy2.derivative (Tree1.lift e) = Ok (Tree1.lift d).
Proof.
  induction e as [name|v|l IHl r IHr|l IHl r IHr|l IHl r IHr|l IHl r IHr
                 |b IHb ex _]; intros d H; simpl in H.
  - injection H as <-; reflexivity.
  - injection H as <-; reflexivity.
  - unbind H. simpl in H; injection H as <-; simpl.
    rewrite (IHl _ D), (IHr _ D0); reflexivity.
  - unbind H. injection H as <-; simpl.
    rewrite (IHl _ D), (IHr _ D0); reflexivity.
  - unbind H. injection H as <-; simpl.
    rewrite (IHl _ D), (IHr _ D0); reflexivity.
  - unbind H. simpl in H; discriminate H.
  - destruct ex as [?|[n|o]| | | | | ]; try discriminate H.
    unbind H. simpl in D; injection D as <-. injection H as <-; simpl.
    rewrite (IHb _ D0); reflexivity.
Qed.

(** X7.  The extended program extends the base program: whenever the
    base program's [derivative] or one of its operators returns a tree,
    the extended program returns the same tree on the same operands, and
    it prints every tree of the base program as the base program does. *)
Theorem extended_program_agrees :
  (forall e d,
      making_sympy1.derivative e = Ok d ->
      making_sympy2.derivative (Tree1.lift e) = Ok (Tree1.lift d)) /\
  (forall o l r t,
      making_sympy1.binop o l r = Ok t ->
      making_sympy2.binop o (Tree1.lift l) (Tree1.lift_obj r) = Ok (Tree1.lift t)) /\
  (forall o k e t,
      making_sympy1.rbinop o k e = Ok t ->
      making_sympy2.rbinop o k (Tree1.lift e) = Ok (Tree1.lift t)) /\
  (forall float_repr e,
      making_sympy2.__repr__ float_repr (Tree1.lift e) =
      making_sympy1.__repr__ float_repr e).
Proof.
  split; [|split; [|split]].
  - intros e d; apply derivative_lift.
  - intros o l r t H; destruct o; simpl in H; try discriminate H.
    1-3: injection H as <-; destruct r; reflexivity.
    destruct l; try discriminate H.
    injection H as <-; destruct r; reflexivity.
  - intros o k e t H; destruct o; simpl in H; try discriminate H;
      injection H as <-; reflexivity.
  - intros float_repr e; apply repr_lift.
Qed.

(** [3 * x + x ** 2] differentiated and printed by both programs. *)
Lemma extended_program_agrees_witness :
  making_sympy2.derivative
    (Tree1.lift
       (making_sympy1.Addition
          (making_sympy1.Multiplication
             (making_sympy1.Var "x")
             (making_sympy1.Constant (making_sympy1.Num (PyInt 3))))
          (making_sympy1.Power
             (making_sympy1.Var "x")
             (making_sympy1.Constant (making_sympy1.Num (PyInt 2))))))
  = Ok (Tree1.lift
          (making_sympy1.Addition
             (making_sympy1.Addition
                (making_sympy1.Multiplication
                   (making_sympy1.Constant (making_sympy1.Num (PyInt 1)))
                   (making_sympy1.Constant (making_sympy1.Num (PyInt 3))))
                (making_sympy1.Multiplication
                   (making_sympy1.Var "x")
                   (making_sympy1.Constant (making_sympy1.Num (PyInt 0)))))
             (making_sympy1.Multiplication
                (making_sympy1.Multiplication
                   (making_sympy1.Constant (making_sympy1.Num (PyInt 2)))
                   (making_sympy1.Power
                      (making_sympy1.Var "x")
                      (making_sympy1.Constant (making_sympy1.Num (PyInt 1)))))
                (making_sympy1.Constant (making_sympy1.Num (PyInt 1)))))).
Proof.
  apply (proj1 extended_program_agrees).
  reflexivity.
Defined.

(** ** What the programs print *)

(** X8.  In the extended program an operator applied to an expression
    and a numeric literal prints as follows.  [e + k], [e - k], [e * k],
    [e / k] print the expression, the operator and the literal in the
    order written; [k + e] and [k * e] print the expression first and
    the literal second; [k - e] and [k / e] print the literal first,
    exactly as the trees [Subtraction(Constant(k), e)] and
    [Division(Constant(k), e)] would print. *)
Theorem operators_printed (float_repr : spec_float -> string)
        (e : making_sympy2.Expression) (k : number) :
  let repr := making_sympy2.__repr__ float_repr in
  let infix a o b := "(" ++ a ++ " " ++ symbol o ++ " " ++ b ++ ")" in
  (forall o, o <> OpPow ->
             (t <- making_sympy2.binop o e (making_sympy2.Num k) ;; Ok (repr t)) =
             Ok (infix (repr e) o (str_number float_repr k))) /\
  (forall o, o = OpAdd \/ o = OpMul ->
             (t <- making_sympy2.rbinop o k e ;; Ok (repr t)) =
             Ok (infix (repr e) o (str_number float_repr k))) /\
  (forall o, o = OpSub \/ o = OpDiv ->
             (t <- making_sympy2.rbinop o k e ;; Ok (repr t)) =
             Ok (infix (str_number float_repr k) o (repr e))) /\
  (t <- making_sympy2.rbinop OpSub k e ;; Ok (repr t)) =
  Ok (repr (making_sympy2.Subtraction
              (making_sympy2.Constant (making_sympy2.Num k)) e)) /\
  (t <- making_sympy2.rbinop OpDiv k e ;; Ok (repr t)) =
  Ok (repr (making_sympy2.Division
              (making_sympy2.Constant (making_sympy2.Num k)) e)).
Proof.
  intros repr infix; subst repr infix.
  split; [|split; [|split; [|split]]].
  - intros o Ho; destruct o; try reflexivity.
    exfalso; apply Ho; reflexivity.
  - intros o [-> | ->]; reflexivity.
  - intros o [-> | ->]; reflexivity.
  - reflexivity.
  - reflexivity.
Qed.

(** [2 * x] prints as [(x * 2)]. *)
Lemma operators_printed_witness :
  (t <- making_sympy2.rbinop OpMul (PyInt 2) (making_sympy2.Var "x") ;;
   Ok (making_sympy2.__repr__ (fun _ => "") t)) = Ok "(x * 2)".
Proof.
  exact (proj1 (proj2 (operators_printed (fun _ => "") (making_sympy2.Var "x") (PyInt 2)))
               OpMul (or_intror eq_refl)).
Defined.

Lemma occurrences_app (c : ascii) (s t : string) :
  occurrences c (s ++ t) = (occurrences c s + occurrences c t)%nat.
Proof.
  induction s as [|a s IH]; simpl; [reflexivity|].
  rewrite IH; lia.
Qed.

Lemma occurrences_digits (c : ascii) (u : Decimal.uint) :
  c = "("%char \/ c = ")"%char ->
  occurrences c (NilEmpty.string_of_uint u) = 0%nat.
Proof.
  intros [-> | ->]; induction u; simpl; auto.
Qed.

Lemma occurrences_str_int (c : ascii) (z : Z) :
  c = "("%char \/ c = ")"%char ->
  occurrences c (str_int z) = 0%nat.
Proof.
  intros Hc; unfold str_int.
  assert (U : forall u, occurrences c (NilZero.string_of_uint u) = 0%nat).
  { intros u; pose proof (occurrences_digits c u Hc) as E.
    destruct u; simpl in *; try exact E.
    destruct Hc as [-> | ->]; reflexivity. }
  destruct (Z.to_int z) as [u|u]; simpl.
  - apply U.
  - rewrite U. destruct Hc as [-> | ->]; reflexivity.
Qed.

Lemma no_parenthesis_spec (s : string) :
  Tree2.no_parenthesis s = true ->
  occurrences "("%char s = 0%nat /\ occurrences ")"%char s = 0%nat.
Proof.
  unfold Tree2.no_parenthesis; intros H.
  apply andb_true_iff in H; destruct H as [H1 H2].
  apply Nat.eqb_eq in H1; apply Nat.eqb_eq in H2; split; assumption.
Qed.

Lemma repr_parentheses (float_repr : spec_float -> string) (c : ascii)
      (e : making_sympy2.Expression) :
  c = "("%char \/ c = ")"%char ->
  Tree2.leaves_ok float_repr Tree2.no_parenthesis e = true ->
  occurrences c (making_sympy2.__repr__ float_repr e) = Tree2.bracketed e.
Proof.
  intros Hc.
  assert (Hleaf : forall s, Tree2.no_parenthesis s = true -> occurrences c s = 0%nat).
  { intros s Hs; destruct (no_parenthesis_spec s Hs) as [H1 H2].
    destruct Hc as [-> | ->]; assumption. }
  assert (Hsin : (occurrences c "sin(" + occurrences c ")" = 1)%nat).
  { destruct Hc as [-> | ->]; reflexivity. }
  assert (Hcos : (occurrences c "cos(" + occurrences c ")" = 1)%nat).
  { destruct Hc as [-> | ->]; reflexivity. }
  assert (Hbin : forall o a b,
             occurrences c ("(" ++ a ++ " " ++ symbol o ++ " " ++ b ++ ")") =
             S (occurrences c a + occurrences c b)).
  { intros o a b. rewrite !occurrences_app.
    destruct Hc as [-> | ->]; destruct o; simpl; lia. }
  induction e using Expression2_mut with
    (P0 := fun v =>
             match v with
             | making_sympy2.Num _ => True
             | making_sympy2.Obj o =>
                 Tree2.leaves_ok float_repr Tree2.no_parenthesis o = true ->
                 occurrences c (making_sympy2.__repr__ float_repr o) =
                 Tree2.bracketed o
             end); try exact I; try assumption.
  - simpl; intros H; apply Hleaf; exact H.
  - destruct value as [[z|f]|o]; simpl; intros H.
    + apply occurrences_str_int; exact Hc.
    + apply Hleaf; exact H.
    + apply IHe; exact H.
  - intros H; simpl in H; apply andb_true_iff in H; destruct H as [H1 H2].
    cbn [making_sympy2.__repr__ Tree2.bracketed].
    rewrite Hbin, (IHe1 H1), (IHe2 H2); reflexivity.
  - intros H; simpl in H; apply andb_true_iff in H; destruct H as [H1 H2].
    cbn [making_sympy2.__repr__ Tree2.bracketed].
    rewrite Hbin, (IHe1 H1), (IHe2 H2); reflexivity.
  - intros H; simpl in H; apply andb_true_iff in H; destruct H as [H1 H2].
    cbn [making_sympy2.__repr__ Tree2.bracketed].
    rewrite Hbin, (IHe1 H1), (IHe2 H2); reflexivity.
  - intros H; simpl in H; apply andb_true_iff in H; destruct H as [H1 H2].
    cbn [making_sympy2.__repr__ Tree2.bracketed].
    rewrite Hbin, (IHe1 H1), (IHe2 H2); reflexivity.
  - intros H; simpl in H; apply andb_true_iff in H; destruct H as [H1 H2].
    cbn [making_sympy2.__repr__ Tree2.bracketed].
    rewrite Hbin, (IHe1 H1), (IHe2 H2); reflexivity.
  - intros H; simpl in H.
    cbn [making_sympy2.__repr__ Tree2.bracketed].
    rewrite !occurrences_app, (IHe H); lia.
  - intros H; simpl in H.
    cbn [making_sympy2.__repr__ Tree2.bracketed].
    rewrite !occurrences_app, (IHe H); lia.
Qed.

(** X9.  When no variable name and no float text contains a
    parenthesis, the text printed for a tree of the extended program is
    balanced: it has as many opening as closing parentheses, one pair
    for every operator and function node printed. *)
Theorem repr_parentheses_balanced (float_repr : spec_float -> string)
        (e : making_sympy2.Expression) :
  Tree2.leaves_ok float_repr Tree2.no_parenthesis e = true ->
  occurrences "("%char (making_sympy2.__repr__ float_repr e) = Tree2.bracketed e /\
  occurrences ")"%char (making_sympy2.__repr__ float_repr e) = Tree2.bracketed e.
Proof.
  intros H; split; apply repr_parentheses; auto.
Qed.

(** [sin((x ** 2) / (1 / x))], the inner quotient built by [1 / x]. *)
Lemma repr_parentheses_balanced_witness :
  let e :=
    making_sympy2.Sin
      (making_sympy2.Division
         (making_sympy2.Power (making_sympy2.Var "x")
                              (making_sympy2.Constant (making_sympy2.Num (PyInt 2))))
         (making_sympy2.__rtruediv__ (making_sympy2.Var "x")
                                     (making_sympy2.Num (PyInt 1)))) in
  occurrences "("%char (making_sympy2.__repr__ (fun _ => "") e) = 4%nat /\
  occurrences ")"%char (making_sympy2.__repr__ (fun _ => "") e) = 4%nat.
Proof.
  intros e.
  exact (repr_parentheses_balanced (fun _ => "") e eq_refl).
Defined.

(** ** The driver *)

(** X10.  [output_derivative] prints the expression before it
    differentiates it and handles no exception.  When
    [input_expression] returned nothing, nothing is printed.  In the
    extended program, an expression with a symbolic exponent in the way
    of [derivative] leaves the single line [f(x) = ...] printed and the
    call ends in [NotImplementedError]; every other expression gets both
    lines.  In the base program every difference leaves the single line
    printed and the call ends in an exception. *)
Theorem output_derivative_runs (float_repr : spec_float -> string) :
  driver1.output_derivative float_repr None = (nil, Ok tt) /\
  driver2.output_derivative float_repr None = (nil, Ok tt) /\
  (forall e,
      making_sympy2.symbolic_power e = true ->
      driver2.output_derivative float_repr (Some e) =
      (cons (newline ++ "f(x) = " ++ making_sympy2.__repr__ float_repr e) nil,
       Raise (NotImplementedError making_sympy2.non_constant_msg))) /\
  (forall e,
      making_sympy2.symbolic_power e = false ->
      exists d,
        making_sympy2.derivative e = Ok d /\
        driver2.output_derivative float_repr (Some e) =
        (cons (newline ++ "f(x) = " ++ making_sympy2.__repr__ float_repr e)
              (cons ("f'(x) = " ++ making_sympy2.__repr__ float_repr d ++ newline) nil),
         Ok tt)) /\
  (forall a b,
      exists err,
        driver1.output_derivative float_repr (Some (making_sympy1.Subtraction a b)) =
        (cons (newline ++ "f(x) = " ++
               making_sympy1.__repr__ float_repr (making_sympy1.Subtraction a b)) nil,
         Raise err)).
Proof.
  split; [reflexivity|]. split; [reflexivity|]. split; [|split].
  - intros e S.
    destruct (derivative_v2_outcome e) as [[_ D]|[S' _]].
    + unfold driver2.output_derivative; rewrite D; reflexivity.
    + rewrite S in S'; discriminate S'.
  - intros e S.
    destruct (derivative_v2_outcome e) as [[S' _]|[_ [d D]]].
    + rewrite S in S'; discriminate S'.
    + exists d; split; [exact D|].
      unfold driver2.output_derivative; rewrite D; reflexivity.
  - intros a b.
    unfold driver1.output_derivative.
    destruct (making_sympy1.derivative (making_sympy1.Subtraction a b))
      as [t|err] eqn:E.
    + exfalso; exact (derivative_v1_Subtraction_not_Ok _ _ _ E).
    + exists err; reflexivity.
Qed.

(** [x ** x] in the extended program: one line, then the exception. *)
Lemma output_derivative_runs_witness :
  driver2.output_derivative (fun _ => "")
    (Some (making_sympy2.Power (making_sympy2.Var "x") (making_sympy2.Var "x"))) =
  (cons (newline ++ "f(x) = (x ** x)") nil,
   Raise (NotImplementedError making_sympy2.non_constant_msg)).
Proof.
  exact (proj1 (proj2 (proj2 (output_derivative_runs (fun _ => ""))))
               (making_sympy2.Power (making_sympy2.Var "x") (making_sympy2.Var "x"))
               eq_refl).
Defined.
